(** * gomts: a verification model of the MyTimeStation client

    The development follows the Go sources of the package: the configuration
    getters ([Config.Get...]), the service errors ([Error], [ErrorList]), the
    authenticating transport ([mtsTransport]), the generic dispatcher
    ([httpDo] and its four entry points), the resource clients and the
    sweeper of [internal/sweeper].

    Everything the package obtains from outside its own sources (the process
    environment, the identifier generator, the standard library's encoders,
    decoders and dumpers) is collected in the record [Platform]; the package's
    functions are translated over an arbitrary platform.

    Requests and responses are Go pointers that the transport and the
    dumpers of [httputil] change in place; the model passes the changed
    value along.  A body is what can be read from it and what its [Close]
    returns; reading a body does not fail. *)

From Stdlib Require Import ZArith Ascii String DecimalString PrimFloat.
From stdpp Require Import base option list strings gmap.

Local Open Scope Z_scope.
#[local] Set Warnings "-register-all".

(** ** Go values used throughout *)

(** [context.Context]: the package only passes contexts along. *)
Inductive Context : Type :=
| ctx_Background
| ctx_Named (name : string).

(** The [error] interface: the dynamic error values this package creates or
    passes through.  An [ErrorList] holds errors itself, hence the nesting. *)
Record Error : Type := mkError {
  ErrorCode : Z;
  ErrorText : string
}.

Record ErrorResponse : Type := mkErrorResponse {
  er_Error : Error
}.

Inductive error : Type :=
| ErrMissingToken
| errService (e : Error)                  (* a pointer to an Error *)
| ErrorList (l : list error)
| errWrap (prefix : string) (e : error)   (* fmt.Errorf("prefix: %w", e) *)
| errURL (op url : string) (e : error)    (* *url.Error of http.Client *)
| errForeign (msg : string).              (* an error of another package *)

(** ** Constants, HTTP and logging values, the configuration *)

Definition defaultProtocol : string := "https".
Definition defaultUserAgent : string := "go.charbar.io/gomts".
Definition defaultHost : string := "api.mytimestation.com".
Definition defaultAPIVersion : string := "v1.2".
Definition authTokenEnvVar : string := "MTS_AUTH_TOKEN".

(** [http.Header]: canonical key to the values added under it, in order. *)
Abbreviation Header := (gmap string (list string)).

Definition Header_Add (key value : string) (h : Header) : Header :=
  <[key := default [] (h !! key) ++ [value]]> h.

Definition Header_Set (key value : string) (h : Header) : Header :=
  <[key := [value]]> h.

Definition Header_Get (key : string) (h : Header) : string :=
  match h !! key with
  | Some (v :: _) => v
  | _ => ""
  end.

(** The body of a request is read as a whole; [req_Body_closeErr] is what
    closing it returns. *)
Record Request : Type := mkRequestWith {
  req_ctx : Context;
  req_Method : string;
  req_URL : string;
  req_Header : Header;
  req_Body : option string;     (* None: no body reader *)
  req_Body_closeErr : option error
}.

(** A request whose body, if it has one, closes without an error. *)
Definition mkRequest (ctx : Context) (method url : string) (h : Header)
    (body : option string) : Request :=
  mkRequestWith ctx method url h body None.

(** The body of a response: the shared empty body [http.NoBody], or a
    reader of its own, which is read as a whole and never fails to be read,
    with what its [Close] returns. *)
Inductive ReadCloser : Type :=
| http_NoBody
| body_reader (content : string) (closeErr : option error).

Record Response : Type := mkResponseWith {
  StatusCode : Z;
  resp_Header : Header;
  resp_ReadCloser : ReadCloser;   (* resp.Body *)
  resp_Request_ctx : Context      (* resp.Request.Context() *)
}.

(** What is read from the body, and what closing it returns. *)
Definition resp_Body (r : Response) : string :=
  match resp_ReadCloser r with
  | http_NoBody => EmptyString
  | body_reader content _ => content
  end.

Definition body_closeErr (r : Response) : option error :=
  match resp_ReadCloser r with
  | http_NoBody => None
  | body_reader _ closeErr => closeErr
  end.

Definition is_NoBody (r : Response) : bool :=
  match resp_ReadCloser r with
  | http_NoBody => true
  | body_reader _ _ => false
  end.

(** A response with a reader of its own. *)
Definition mkResponse (status : Z) (h : Header) (body : string) (closeErr : option error)
    (ctx : Context) : Response :=
  mkResponseWith status h (body_reader body closeErr) ctx.

(** [http.RoundTripper]. *)
Definition RoundTripper : Type := Request -> Response + error.

(** [slog]: levels, handlers and loggers. *)
Definition Level : Type := Z.
Definition LevelDebug : Level := -4.
Definition LevelInfo : Level := 0.
Definition LevelWarn : Level := 4.
Definition LevelError : Level := 8.

Inductive Writer : Type := os_Stderr | os_Stdout.

Inductive Handler : Type :=
| NewTextHandler (w : Writer) (level : Level)   (* slog.NewTextHandler(w, &HandlerOptions{Level}) *)
| userHandler (name : string).                  (* a handler implemented by the caller *)

Inductive Attr : Type :=
| slog_String (key value : string)
| slog_Any (key : string) (value : error).

(** What a logger accumulates through [With] and [WithGroup]. *)
Inductive Scope : Type :=
| scope_group (name : string)
| scope_attr (a : Attr).

Record Logger : Type := mkLogger {
  log_handler : Handler;
  log_scopes : list Scope
}.

Definition slog_New (h : Handler) : Logger := mkLogger h [].

Definition WithGroup (name : string) (l : Logger) : Logger :=
  mkLogger (log_handler l) (log_scopes l ++ [scope_group name]).

Definition With (a : Attr) (l : Logger) : Logger :=
  mkLogger (log_handler l) (log_scopes l ++ [scope_attr a]).

Record Config : Type := mkConfig {
  Protocol : string;
  UserAgent : string;
  Host : string;
  APIVersion : string;
  Debug : bool;
  AuthToken : string;
  Transport : option RoundTripper;
  LogHandler : option Handler
}.

(** ** Request and response shapes (department and employee sources) *)

(** A Go value as the reflecting encoders see it. *)
Inductive Value : Type :=
| val_string (s : string)
| val_float64 (f : float)
| val_bool (b : bool)
| val_map (m : gmap string string)      (* map[string]string *)
| val_ptr (p : option Value).           (* *T; None is the nil pointer *)

(** A struct field: its Go name, its tag as written in the source, its value. *)
Record Field : Type := mkField {
  f_Name : string;
  f_tagKey : string;        (* the key of the tag: url or json *)
  f_tag : string;           (* the tag's text *)
  f_value : Value
}.

Record Department : Type := mkDepartment {
  dep_ID : string;          (* json department_id *)
  dep_Name : string         (* json name *)
}.

Record DepartmentCreateRequest : Type := mkDepartmentCreateRequest {
  dcr_Name : string
}.

Record DepartmentListResponse : Type := mkDepartmentListResponse {
  Departments : list Department
}.

Record DepartmentResponse : Type := mkDepartmentResponse {
  dr_Department : Department
}.

Record Employee : Type := mkEmployee {
  emp_ID : string;
  emp_Name : string;
  emp_Title : string;
  emp_PrimaryDepartment : string;
  emp_PrimaryDepartmentID : string;
  emp_CurrentDepartment : string;
  emp_CurrentDepartmentID : string;
  emp_Status : string;
  emp_CustomEmployeeID : string;
  emp_PIN : string;
  emp_CardNumber : string;
  emp_CardQRCode : string;
  emp_CustomFields : gmap string string
}.

Record EmployeeListResponse : Type := mkEmployeeListResponse {
  Employees : list Employee
}.

Record EmployeeResponse : Type := mkEmployeeResponse {
  er_Employee : Employee
}.

Record EmployeeCreateRequest : Type := mkEmployeeCreateRequest {
  ecr_Name : string;
  ecr_DepartmentID : string;
  ecr_DepartmentName : string;
  ecr_CustomEmployeeID : string;
  ecr_Title : string;
  ecr_HourlyRate : float;
  ecr_PIN : string;
  ecr_CustomFields : gmap string string
}.

Record EmployeeUpdateRequest : Type := mkEmployeeUpdateRequest {
  eur_Name : option string;
  eur_DepartmentID : option string;
  eur_DepartmentName : option string;
  eur_CustomEmployeeID : option string;
  eur_Title : option string;
  eur_HourlyRate : option float;
  eur_PIN : option string;
  eur_CustomFields : gmap string string;
  eur_ConvertPrimaryDepartment : option bool
}.

(** The fields of the request structs, with the tags of the source. *)
Definition DepartmentCreateRequest_fields (r : DepartmentCreateRequest) : list Field :=
  [ mkField "Name" "url" "name" (val_string (dcr_Name r)) ].

Definition EmployeeCreateRequest_fields (r : EmployeeCreateRequest) : list Field :=
  [ mkField "Name" "url" "name" (val_string (ecr_Name r));
    mkField "DepartmentID" "url" "department_id,omitempty" (val_string (ecr_DepartmentID r));
    mkField "DepartmentName" "url" "department_name,omitempty" (val_string (ecr_DepartmentName r));
    mkField "CustomEmployeeID" "url" "custom_employee_id,omitempty" (val_string (ecr_CustomEmployeeID r));
    mkField "Title" "url" "title,omitempty" (val_string (ecr_Title r));
    mkField "HourlyRate" "url" "hourly_rate,omitempty" (val_float64 (ecr_HourlyRate r));
    mkField "PIN" "url" "pin,omitempty" (val_string (ecr_PIN r));
    mkField "CustomFields" "url" "custom_fields,omitempty" (val_map (ecr_CustomFields r)) ].

Definition ptr_string (p : option string) : Value := val_ptr (val_string <$> p).

Definition EmployeeUpdateRequest_fields (r : EmployeeUpdateRequest) : list Field :=
  [ mkField "Name" "json" "name" (ptr_string (eur_Name r));
    mkField "DepartmentID" "json" "department_id,omitempty" (ptr_string (eur_DepartmentID r));
    mkField "DepartmentName" "json" "department_name,omitempty" (ptr_string (eur_DepartmentName r));
    mkField "CustomEmployeeID" "json" "custom_employee_id,omitempty" (ptr_string (eur_CustomEmployeeID r));
    mkField "Title" "json" "title,omitempty" (ptr_string (eur_Title r));
    mkField "HourlyRate" "json" "hourly_rate,omitempty" (val_ptr (val_float64 <$> eur_HourlyRate r));
    mkField "PIN" "json" "pin,omitempty" (ptr_string (eur_PIN r));
    mkField "CustomFields" "json" "custom_fields,omitempty" (val_map (eur_CustomFields r));
    mkField "ConvertPrimaryDepartment" "json" "convert_primary_department,omitempty"
            (val_ptr (val_bool <$> eur_ConvertPrimaryDepartment r)) ].

(** The dynamic values that reach the dispatcher's [body any]: the resource
    clients pass a pointer to one of the three request structs. *)
Inductive Body : Type :=
| body_DepartmentCreateRequest (p : option DepartmentCreateRequest)
| body_EmployeeCreateRequest (p : option EmployeeCreateRequest)
| body_EmployeeUpdateRequest (p : option EmployeeUpdateRequest).

Definition Body_fields (b : Body) : option (list Field) :=
  match b with
  | body_DepartmentCreateRequest p => DepartmentCreateRequest_fields <$> p
  | body_EmployeeCreateRequest p => EmployeeCreateRequest_fields <$> p
  | body_EmployeeUpdateRequest p => EmployeeUpdateRequest_fields <$> p
  end.

(** [formRequest]: the interface with the single method [form]. *)
Class formRequest (T : Type) : Type := form : T -> unit.

#[export] Instance DepartmentCreateRequest_form : formRequest DepartmentCreateRequest :=
  fun _ => tt.
#[export] Instance EmployeeCreateRequest_form : formRequest EmployeeCreateRequest :=
  fun _ => tt.

(** The type assertion [body.(formRequest)]: it holds of the pointer types
    whose element type declares [form]. *)
Definition is_formRequest (b : Body) : bool :=
  match b with
  | body_DepartmentCreateRequest _ => true
  | body_EmployeeCreateRequest _ => true
  | body_EmployeeUpdateRequest _ => false
  end.

(** What [encoding/json] is given to write: null for a nil pointer, or the
    members it selected. *)
Inductive JSONDoc : Type :=
| json_null
| json_object (members : list (string * Value)).

(** A value of type [T] decoded from a JSON text: [json_Decode s] is the
    state of a zero-initialised [T] after [Decode], and the error returned. *)
Class JSONDecoder (T : Type) : Type := json_Decode : string -> T * option error.

(** What the package takes from its surroundings. *)
Record Platform : Type := mkPlatform {
  os_Getenv : string -> string;
  uuid_New : nat -> string;                 (* the n-th identifier drawn *)
  base64_EncodeToString : string -> string; (* base64.StdEncoding *)
  strconv_Quote : string -> string;
  fmt_Sprint : Value -> string;
  http_StatusText : Z -> string;
  http_DefaultTransport : RoundTripper;
  http_NewRequest_err : string -> string -> option error;
  httputil_DumpRequestOut : Request -> string * option error;
  httputil_DumpResponse : Response -> string * option error;
  url_Values_Encode : gmap string (list string) -> string;
  json_Encode : JSONDoc -> string + error;
  slog_Default : Logger
}.

(** ** The configuration getters *)

Section Config.
Context (P : Platform).

Definition GetAuthToken (c : Config) : string :=
  if String.eqb (AuthToken c) "" then os_Getenv P authTokenEnvVar
  else AuthToken c.

Definition GetUserAgent (c : Config) : string :=
  if String.eqb (AuthToken c) "" then defaultUserAgent
  else UserAgent c.

Definition GetProtocol (c : Config) : string :=
  if String.eqb (Protocol c) "" then defaultProtocol else Protocol c.

Definition GetAPIVersion (c : Config) : string :=
  if String.eqb (APIVersion c) "" then defaultAPIVersion else APIVersion c.

Definition GetHost (c : Config) : string :=
  if String.eqb (Host c) "" then defaultHost else Host c.

Definition GetBaseURL (c : Config) : string :=
  GetProtocol c +:+ "://" +:+ GetHost c +:+ "/" +:+ GetAPIVersion c.

Definition GetLogger (c : Config) : Logger :=
  match LogHandler c with
  | Some h => slog_New h
  | None =>
      let level := LevelInfo in
      let level := if Debug c then LevelDebug else level in
      slog_New (NewTextHandler os_Stderr level)
  end.
End Config.

(** ** Effects: the trace of a run

    The package's functions act on the outside through three kinds of calls:
    a record handed to a logger, a request handed to the wrapped transport,
    and the closing of a response body.  A run threads the trace of these
    calls, oldest first, and the number of identifiers drawn so far. *)

Record LogRecord : Type := mkLogRecord {
  rec_logger : Logger;
  rec_ctx : Context;
  rec_level : Level;
  rec_msg : string;
  rec_attrs : list Attr
}.

Inductive Event : Type :=
| ev_log (r : LogRecord)
| ev_roundtrip (r : Request)      (* the wrapped transport is called *)
| ev_close (r : Response).        (* resp.Body.Close() *)

Record World : Type := mkWorld {
  trace : list Event;
  drawn : nat
}.

Definition M (A : Type) : Type := World -> A * World.

#[export] Instance M_ret : MRet M := fun A (x : A) w => (x, w).
#[export] Instance M_bind : MBind M :=
  fun A B (f : A -> M B) (m : M A) w => let '(a, w') := m w in f a w'.

Definition emit (e : Event) : M unit :=
  fun w => (tt, mkWorld (trace w ++ [e]) (drawn w)).

Definition when (b : bool) (m : M unit) : M unit :=
  if b then m else mret tt.

Definition Logger_log (l : Logger) (ctx : Context) (level : Level)
    (msg : string) (attrs : list Attr) : M unit :=
  emit (ev_log (mkLogRecord l ctx level msg attrs)).

Definition DebugContext (l : Logger) ctx msg attrs : M unit :=
  Logger_log l ctx LevelDebug msg attrs.
Definition InfoContext (l : Logger) ctx msg attrs : M unit :=
  Logger_log l ctx LevelInfo msg attrs.
Definition ErrorContext (l : Logger) ctx msg attrs : M unit :=
  Logger_log l ctx LevelError msg attrs.

Definition Body_Close (r : Response) : M (option error) :=
  _ ← emit (ev_close r); mret (body_closeErr r).

(** ** Service errors and the aggregate error *)

Definition Z_to_string (z : Z) : string := NilZero.string_of_int (Z.to_int z).

(** The method [Error] of a service error: the code in brackets, a space,
    the text. *)
Definition Error_Error (e : Error) : string :=
  "[" +:+ Z_to_string (ErrorCode e) +:+ "] " +:+ ErrorText e.

Section Errors.
Context (P : Platform).

(** The text of an error value, as [%v] prints it.  The case of [ErrorList]
    is its method [Error]: the header goes to the builder, and the loop
    body returns at the first element. *)
Fixpoint error_string (e : error) : string :=
  match e with
  | ErrMissingToken => "missing MyTimeStation API auth token"
  | errService e => Error_Error e
  | ErrorList l =>
      match l with
      | [] => "error:"
      | err :: _ => " " +:+ error_string err +:+ " ;"
      end
  | errWrap prefix e => prefix +:+ ": " +:+ error_string e
  | errURL op url e => op +:+ " " +:+ strconv_Quote P url +:+ ": " +:+ error_string e
  | errForeign msg => msg
  end.

Definition ErrorList_Error (l : list error) : string := error_string (ErrorList l).
End Errors.

(** ** The authenticating transport *)

Record mtsTransport : Type := mkTransport {
  conf : Config;
  logr : Logger
}.

Definition GetTransport (P : Platform) (c : Config) : mtsTransport :=
  mkTransport c (slog_Default P).

Definition set_Header (f : Header -> Header) (r : Request) : Request :=
  mkRequestWith (req_ctx r) (req_Method r) (req_URL r) (f (req_Header r)) (req_Body r)
    (req_Body_closeErr r).

Definition WithContext (ctx : Context) (r : Request) : Request :=
  mkRequestWith ctx (req_Method r) (req_URL r) (req_Header r) (req_Body r)
    (req_Body_closeErr r).

Section Transport.
Context (P : Platform) {errDecoder : JSONDecoder ErrorResponse}.

(** [uuid.New().String()] *)
Definition uuid_New_String : M string :=
  fun w => (uuid_New P (drawn w), mkWorld (trace w) (S (drawn w))).

(** [http.Request.SetBasicAuth] *)
Definition SetBasicAuth (username password : string) (r : Request) : Request :=
  set_Header
    (Header_Set "Authorization"
       ("Basic " +:+ base64_EncodeToString P (username +:+ ":" +:+ password)))
    r.

Definition getWrappedTransport (t : mtsTransport) : RoundTripper :=
  match Transport (conf t) with
  | Some rt => rt
  | None => http_DefaultTransport P
  end.

(** The call of the wrapped transport's [RoundTrip]. *)
Definition wrapped_RoundTrip (rt : RoundTripper) (req : Request) : M (Response + error) :=
  _ ← emit (ev_roundtrip req); mret (rt req).

Definition mapResponseToError (resp : Response) : M Error :=
  let errResp := fst (json_Decode (T := ErrorResponse) (resp_Body resp)) in
  let err := er_Error errResp in
  let err :=
    if ErrorCode err =? 0 then mkError (StatusCode resp) (ErrorText err) else err in
  let err :=
    if String.eqb (ErrorText err) ""
    then mkError (ErrorCode err) (http_StatusText P (ErrorCode err)) else err in
  _ ← Body_Close resp;       (* deferred *)
  mret err.

(** [drainBody] of [httputil]: a body that is missing or [http.NoBody] is
    left alone; any other is read to its end and closed, and then replaced
    by a copy in memory, which has the same content and closes without an
    error, or, when closing failed, left in place, read to its end. *)
Definition drained_Request (r : Request) : Request :=
  mkRequestWith (req_ctx r) (req_Method r) (req_URL r) (req_Header r)
    (const EmptyString <$> req_Body r) (req_Body_closeErr r).

Definition drained_Response (r : Response) : Response :=
  mkResponseWith (StatusCode r) (resp_Header r)
    match resp_ReadCloser r with
    | http_NoBody => http_NoBody
    | body_reader _ closeErr => body_reader EmptyString closeErr
    end
    (resp_Request_ctx r).

(** [httputil.DumpRequestOut(req, true)]: the bytes and the error it
    returns, and the request it leaves behind.  A request without a body is
    not drained; the platform's dumper stands for the writing of a request
    whose body was drained; no bytes come with an error. *)
Definition DumpRequestOut (req : Request) : (string * option error) * Request :=
  match req_Body req, req_Body_closeErr req with
  | Some _, Some e => ((EmptyString, Some e), drained_Request req)
  | _, _ =>
      match httputil_DumpRequestOut P req with
      | (_, Some e) => ((EmptyString, Some e), req)
      | (bytes, None) => ((bytes, None), req)
      end
  end.

(** [httputil.DumpResponse(resp, true)], in the same way; the closing of
    the body is an event. *)
Definition DumpResponse (resp : Response) : M ((string * option error) * Response) :=
  cerr ← (if is_NoBody resp then mret None else Body_Close resp);
  match cerr with
  | Some e => mret ((EmptyString, Some e), drained_Response resp)
  | None =>
      match httputil_DumpResponse P resp with
      | (_, Some e) => mret ((EmptyString, Some e), resp)
      | (bytes, None) => mret ((bytes, None), resp)
      end
  end.

(** [logRequest] and [logResponse] work on the request and the response in
    place: they return them as the dump leaves them. *)
Definition logRequest (t : mtsTransport) (req : Request) (correlationID : string) :
    M Request :=
  let logr' := With (slog_String "correlationID" correlationID) (logr t) in
  let '((reqBytes, err), req) := DumpRequestOut req in
  _ ← match err with
      | Some e => ErrorContext logr' (req_ctx req) "failed to dump request" [slog_Any "error" e]
      | None => mret tt
      end;
  _ ← DebugContext (logr t) (req_ctx req) "outbound request" [slog_String "request" reqBytes];
  mret req.

Definition logResponse (t : mtsTransport) (resp : Response) (correlationID : string) :
    M Response :=
  let logr' := With (slog_String "correlationID" correlationID) (logr t) in
  dumped ← DumpResponse resp;
  let '((respBytes, err), resp) := dumped in
  _ ← match err with
      | Some e =>
          ErrorContext logr' (resp_Request_ctx resp) "failed to dump response" [slog_Any "error" e]
      | None => mret tt
      end;
  _ ← DebugContext (logr t) (resp_Request_ctx resp) "received response"
        [slog_String "r" respBytes];
  mret resp.

Definition RoundTrip (t : mtsTransport) (req : Request) : M (Response + error) :=
  if String.eqb (GetAuthToken P (conf t)) "" then mret (inr ErrMissingToken)
  else
    correlationID ← uuid_New_String;
    let req := set_Header (Header_Add "User-Agent" (GetUserAgent (conf t))) req in
    let req := set_Header (Header_Add "Accept" "application/json") req in
    req ← (if Debug (conf t) then logRequest t req correlationID else mret req);
    let req := SetBasicAuth (GetAuthToken P (conf t)) "" req in
    r ← wrapped_RoundTrip (getWrappedTransport t) req;
    match r with
    | inr err => mret (inr (errWrap "request failed" err))
    | inl resp =>
        resp ← (if Debug (conf t) then logResponse t resp correlationID else mret resp);
        if (StatusCode resp <? 200) || (StatusCode resp >? 299)
        then e ← mapResponseToError resp; mret (inr (errService e))
        else mret (inl resp)
    end.

End Transport.

(** ** Encoders driven by struct tags *)

(** [strings.Split(s, sep)] for a one-byte separator. *)
Fixpoint split_on (sep : ascii) (s : string) : list string :=
  match s with
  | EmptyString => [EmptyString]
  | String c s' =>
      if Ascii.eqb c sep then EmptyString :: split_on sep s'
      else match split_on sep s' with
           | [] => [String c EmptyString]
           | x :: xs => String c x :: xs
           end
  end.

(** [parseTag]: the name before the first comma, the options after it. *)
Definition parseTag (tag : string) : string * list string :=
  match split_on "," tag with
  | [] => (EmptyString, [])
  | name :: opts => (name, opts)
  end.

Definition tagOptions_Contains (opts : list string) (option : string) : bool :=
  existsb (String.eqb option) opts.

(** [reflect.StructTag.Get] *)
Definition Tag_Get (key : string) (f : Field) : string :=
  if String.eqb (f_tagKey f) key then f_tag f else "".

(** [isEmptyValue], the same in [go-querystring] and [encoding/json] on the
    kinds that occur here. *)
Definition isEmptyValue (v : Value) : bool :=
  match v with
  | val_string s => String.eqb s ""
  | val_float64 f => PrimFloat.eqb f 0%float
  | val_bool b => negb b
  | val_map m => bool_decide (size m = 0%nat)
  | val_ptr p => match p with None => true | Some _ => false end
  end.

(** The name under which a field is written, or [None] when it is left out:
    a dash tag skips the field, an empty name falls back to the Go name, and
    the option omitempty skips an empty value. *)
Definition field_key (tagKey : string) (f : Field) : option string :=
  let tag := Tag_Get tagKey f in
  if String.eqb tag "-" then None
  else
    let '(name, opts) := parseTag tag in
    let name := if String.eqb name "" then f_Name f else name in
    if tagOptions_Contains opts "omitempty" && isEmptyValue (f_value f) then None
    else Some name.

Section Encoders.
Context (P : Platform).

(** [valueString] of [go-querystring]: pointers are followed, a nil pointer
    is the empty string, anything else is printed by [fmt.Sprint]. *)
Fixpoint valueString (v : Value) : string :=
  match v with
  | val_ptr None => ""
  | val_ptr (Some v') => valueString v'
  | val_string s => s
  | _ => fmt_Sprint P v
  end.

(** [url.Values.Add] *)
Definition Values_Add (key value : string) (v : gmap string (list string)) :
    gmap string (list string) :=
  <[key := default [] (v !! key) ++ [value]]> v.

(** [reflectValue] of [go-querystring] over the fields of a struct. *)
Definition reflectValue (fs : list Field) (values : gmap string (list string)) :
    gmap string (list string) :=
  foldl (fun values f =>
           match field_key "url" f with
           | Some name => Values_Add name (valueString (f_value f)) values
           | None => values
           end) values fs.

(** [query.Values]: a nil pointer gives no values; the structs of this
    package hold nothing the encoder rejects. *)
Definition query_Values (b : Body) : gmap string (list string) + error :=
  match Body_fields b with
  | None => inl ∅
  | Some fs => inl (reflectValue fs ∅)
  end.

(** The members [encoding/json] writes for a struct. *)
Definition json_members (fs : list Field) : list (string * Value) :=
  omap (fun f => (fun name => (name, f_value f)) <$> field_key "json" f) fs.

Definition json_doc (b : Body) : JSONDoc :=
  match Body_fields b with
  | None => json_null
  | Some fs => json_object (json_members fs)
  end.

(** [json.NewEncoder(buf).Encode(body)]: the text written, or the error. *)
Definition json_Encoder_Encode (b : Body) : string + error :=
  json_Encode P (json_doc b).

End Encoders.

(** ** The generic dispatcher *)

Definition MethodGet : string := "GET".
Definition MethodPut : string := "PUT".
Definition MethodPost : string := "POST".
Definition MethodDelete : string := "DELETE".

Record client : Type := mkClient {
  c_conf : Config;
  httpClient : mtsTransport;      (* http.Client{Transport: transport} *)
  c_logr : Logger
}.

Definition newClient (P : Platform) (config : Config) : client :=
  let logr := WithGroup "gomts" (GetLogger config) in
  let transport := GetTransport P config in
  let transport := mkTransport (conf transport) (WithGroup "transport" logr) in
  mkClient config transport logr.

Definition ascii_lower (c : ascii) : ascii :=
  let n := nat_of_ascii c in
  if (65 <=? n)%nat && (n <=? 90)%nat then ascii_of_nat (n + 32) else c.

Fixpoint strings_ToLower (s : string) : string :=
  match s with
  | EmptyString => EmptyString
  | String c s' => String (ascii_lower c) (strings_ToLower s')
  end.

(** The operation named in the [url.Error] of [http.Client]: the method with
    all but its first letter in lower case. *)
Definition urlErrorOp (method : string) : string :=
  match method with
  | EmptyString => "Get"
  | String c s' => String c (strings_ToLower s')
  end.

Section Dispatcher.
Context (P : Platform) {errDecoder : JSONDecoder ErrorResponse}.

(** [http.NewRequest]: an empty method means GET; the request starts with an
    empty header and the background context. *)
Definition http_NewRequest (method url : string) (body : option string) : Request + error :=
  let method := if String.eqb method "" then MethodGet else method in
  match http_NewRequest_err P method url with
  | Some err => inr err
  | None => inl (mkRequest ctx_Background method url ∅ body)   (* a buffer as the body *)
  end.

Definition newHTTPRequest (ctx : Context) (method reqURL : string) (body : option Body) :
    Request + error :=
  let encoded : (option string * string) + error :=
    match body with
    | Some b =>
        if is_formRequest b then
          match query_Values P b with
          | inr err => inr (errWrap "could not marshal url-form-encoded" err)
          | inl values =>
              inl (Some (url_Values_Encode P values), "application/x-www-form-urlencoded")
          end
        else
          match json_Encoder_Encode P b with
          | inr err => inr (errWrap "could not marshal json" err)
          | inl buf => inl (Some buf, "application/json")
          end
    | None => inl (None, "")
    end in
  match encoded with
  | inr err => inr err
  | inl (bodyReader, contentType) =>
      match http_NewRequest method reqURL bodyReader with
      | inr err => inr (errWrap "could not build request" err)
      | inl req =>
          let req := set_Header (Header_Add "Content-Type" contentType) req in
          inl (WithContext ctx req)
      end
  end.

(** [http.Client.Do] over the authenticating transport, for a URL without
    user information: the transport's error comes back inside a [url.Error];
    a response of the transport has a status from 200 to 299, so there is no
    redirect to follow, and it is handed on as it is. *)
Definition Client_Do (t : mtsTransport) (req : Request) : M (Response + error) :=
  r ← RoundTrip P t req;
  mret match r with
       | inl resp => inl resp
       | inr err => inr (errURL (urlErrorOp (req_Method req)) (req_URL req) err)
       end.

(** The results are Go's pairs: a pointer (or nil) and an error (or nil). *)
Definition mapResponseBody {T} `{JSONDecoder T} (c : client) (resp : Response) :
    M (option T * option error) :=
  let '(out, err) := json_Decode (T := T) (resp_Body resp) in
  cerr ← Body_Close resp;      (* deferred *)
  _ ← match cerr with
      | Some e =>
          ErrorContext (c_logr c) (resp_Request_ctx resp) "failed to close response body"
            [slog_Any "error" e]
      | None => mret tt
      end;
  mret (Some out, err).

Definition httpDo {T} `{JSONDecoder T} (ctx : Context) (c : client)
    (method path : string) (body : option Body) : M (option T * option error) :=
  let url := GetBaseURL (c_conf c) +:+ path in
  match newHTTPRequest ctx method url body with
  | inr err => mret (None, Some err)
  | inl req =>
      r ← Client_Do (httpClient c) req;
      match r with
      | inr err => mret (None, Some err)
      | inl resp => mapResponseBody c resp
      end
  end.

Definition httpGet {T} `{JSONDecoder T} ctx (c : client) (path : string) :
    M (option T * option error) :=
  httpDo ctx c MethodGet path None.

Definition httpPut {T} `{JSONDecoder T} ctx (c : client) (path : string) (body : option Body) :
    M (option T * option error) :=
  httpDo ctx c MethodPut path body.

Definition httpPost {T} `{JSONDecoder T} ctx (c : client) (path : string) (body : option Body) :
    M (option T * option error) :=
  httpDo ctx c MethodPost path body.

Definition httpDelete {T} `{JSONDecoder T} ctx (c : client) (path : string) :
    M (option T * option error) :=
  httpDo ctx c MethodDelete path None.

End Dispatcher.

(** ** Resource clients *)

Section Resources.
Context (P : Platform) {errDecoder : JSONDecoder ErrorResponse}
  {decDepartment : JSONDecoder DepartmentResponse}
  {decDepartments : JSONDecoder DepartmentListResponse}
  {decEmployee : JSONDecoder EmployeeResponse}
  {decEmployees : JSONDecoder EmployeeListResponse}.

(** The shape shared by the methods: the error is handed back as it is, and
    otherwise the resource is taken out of its envelope. *)
Definition unwrap {T R} (get : T -> R) (r : option T * option error) : option R * option error :=
  match r with
  | (_, Some err) => (None, Some err)
  | (resp, None) => (get <$> resp, None)
  end.

Definition Departments_Create (c : client) ctx (req : option DepartmentCreateRequest) :
    M (option Department * option error) :=
  r ← httpPost P ctx c "/departments" (Some (body_DepartmentCreateRequest req));
  mret (unwrap dr_Department r).

Definition Departments_List (c : client) ctx : M (option (list Department) * option error) :=
  r ← httpGet P ctx c "/departments";
  mret (unwrap Departments r).

Definition Departments_Delete (c : client) ctx (id : string) :
    M (option Department * option error) :=
  r ← httpDelete P ctx c ("/departments/" +:+ id);
  mret (unwrap dr_Department r).


Definition Employees_Get (c : client) ctx (id : string) :
    M (option Employee * option error) :=
  r ← httpGet P ctx c ("/employees/" +:+ id);
  mret (unwrap er_Employee r).


Definition Employees_Delete (c : client) ctx (id : string) :
    M (option Employee * option error) :=
  r ← httpDelete P ctx c ("/employees/" +:+ id);
  mret (unwrap er_Employee r).

Definition Employees_List (c : client) ctx : M (option (list Employee) * option error) :=
  r ← httpGet P ctx c "/employees";
  mret (unwrap Employees r).

(** ** The sweeper *)

Record Sweeper : Type := mkSweeper {
  s_c : client;
  s_logr : Logger;
  employeeIDs : list string;
  departmentIDs : list string
}.

Definition NewSweeper (c : client) (logger : Logger) : Sweeper :=
  mkSweeper c (WithGroup "sweeper" logger) [] [].

(** One of the two loops of [Sweep]: delete, keep the error if there is one,
    log. *)
Fixpoint sweep_loop {R} (delete : string -> M (option R * option error))
    (logr : Logger) ctx (msg key : string) (ids : list string) (errList : list error) :
    M (list error) :=
  match ids with
  | [] => mret errList
  | id :: ids' =>
      r ← delete id;
      let errList := match snd r with
                     | Some err => errList ++ [err]
                     | None => errList
                     end in
      _ ← InfoContext logr ctx msg [slog_String key id];
      sweep_loop delete logr ctx msg key ids' errList
  end.

(** [Sweep]: the result is Go's [error], nil when nothing failed. *)
Definition Sweep (s : Sweeper) ctx : M (option error) :=
  let errList := [] in
  errList ← sweep_loop (Employees_Delete (s_c s) ctx) (s_logr s) ctx
               "deleted employee" "employee_id" (employeeIDs s) errList;
  errList ← sweep_loop (Departments_Delete (s_c s) ctx) (s_logr s) ctx
               "deleted department" "department_id" (departmentIDs s) errList;
  if (length errList =? 0)%nat then mret None
  else mret (Some (ErrorList errList)).

End Resources.

(** ** A platform for the examples

    A small stand-in for the standard library, enough to run the package's
    functions on concrete inputs: a fixed environment, counted identifiers,
    base64, the table of status texts, and plain serialisers. *)

Module Fixture.

Definition dq : string := String (ascii_of_nat 34) EmptyString.
Definition lf : string := String (ascii_of_nat 10) EmptyString.
Definition crlf : string := String (ascii_of_nat 13) lf.

Definition base64_alphabet : string :=
  "ABCDEFGHIJKLMNOPQRSTUVWXYZabcdefghijklmnopqrstuvwxyz0123456789+/".

Definition base64_char (n : nat) : string :=
  match String.get n base64_alphabet with
  | Some c => String c EmptyString
  | None => EmptyString
  end.

Fixpoint base64_groups (l : list nat) : string :=
  match l with
  | [] => EmptyString
  | [a] =>
      base64_char (a / 4) +:+ base64_char (a mod 4 * 16) +:+ "=="
  | [a; b] =>
      base64_char (a / 4) +:+ base64_char (a mod 4 * 16 + b / 16)
      +:+ base64_char (b mod 16 * 4) +:+ "="
  | a :: b :: c :: rest =>
      base64_char (a / 4) +:+ base64_char (a mod 4 * 16 + b / 16)
      +:+ base64_char (b mod 16 * 4 + c / 64) +:+ base64_char (c mod 64)
      +:+ base64_groups rest
  end%nat.

Definition base64 (s : string) : string :=
  base64_groups (nat_of_ascii <$> list_ascii_of_string s).

Definition StatusText (code : Z) : string :=
  match code with
  | 100 => "Continue" | 101 => "Switching Protocols" | 102 => "Processing"
  | 103 => "Early Hints"
  | 200 => "OK" | 201 => "Created" | 202 => "Accepted"
  | 203 => "Non-Authoritative Information" | 204 => "No Content"
  | 205 => "Reset Content" | 206 => "Partial Content" | 207 => "Multi-Status"
  | 208 => "Already Reported" | 226 => "IM Used"
  | 300 => "Multiple Choices" | 301 => "Moved Permanently" | 302 => "Found"
  | 303 => "See Other" | 304 => "Not Modified" | 305 => "Use Proxy"
  | 307 => "Temporary Redirect" | 308 => "Permanent Redirect"
  | 400 => "Bad Request" | 401 => "Unauthorized" | 402 => "Payment Required"
  | 403 => "Forbidden" | 404 => "Not Found" | 405 => "Method Not Allowed"
  | 406 => "Not Acceptable" | 407 => "Proxy Authentication Required"
  | 408 => "Request Timeout" | 409 => "Conflict" | 410 => "Gone"
  | 411 => "Length Required" | 412 => "Precondition Failed"
  | 413 => "Request Entity Too Large" | 414 => "Request URI Too Long"
  | 415 => "Unsupported Media Type" | 416 => "Requested Range Not Satisfiable"
  | 417 => "Expectation Failed" | 418 => "I'm a teapot"
  | 421 => "Misdirected Request" | 422 => "Unprocessable Entity"
  | 423 => "Locked" | 424 => "Failed Dependency" | 425 => "Too Early"
  | 426 => "Upgrade Required" | 428 => "Precondition Required"
  | 429 => "Too Many Requests" | 431 => "Request Header Fields Too Large"
  | 451 => "Unavailable For Legal Reasons"
  | 500 => "Internal Server Error" | 501 => "Not Implemented"
  | 502 => "Bad Gateway" | 503 => "Service Unavailable"
  | 504 => "Gateway Timeout" | 505 => "HTTP Version Not Supported"
  | 506 => "Variant Also Negotiates" | 507 => "Insufficient Storage"
  | 508 => "Loop Detected" | 510 => "Not Extended"
  | 511 => "Network Authentication Required"
  | _ => ""
  end.

Definition join (sep : string) (l : list string) : string :=
  match l with
  | [] => EmptyString
  | x :: xs => foldl (fun acc y => acc +:+ sep +:+ y) x xs
  end.

Definition header_lines (h : Header) : string :=
  String.concat EmptyString
    (flat_map (fun kv => (fun v => fst kv +:+ ": " +:+ v +:+ crlf) <$> snd kv) (map_to_list h)).

Definition dump_request (r : Request) : string * option error :=
  (req_Method r +:+ " " +:+ req_URL r +:+ " HTTP/1.1" +:+ crlf
   +:+ header_lines (req_Header r) +:+ crlf +:+ default EmptyString (req_Body r), None).

Definition dump_response (r : Response) : string * option error :=
  ("HTTP/1.1 " +:+ Z_to_string (StatusCode r) +:+ " " +:+ StatusText (StatusCode r) +:+ crlf
   +:+ header_lines (resp_Header r) +:+ crlf +:+ resp_Body r, None).

Definition sprint (v : Value) : string :=
  match v with
  | val_string s => s
  | val_bool true => "true"
  | val_bool false => "false"
  | val_float64 _ => "float64"
  | val_map _ => "map"
  | val_ptr _ => "pointer"
  end.

Definition encode_values (v : gmap string (list string)) : string :=
  join "&" (flat_map (fun kv => (fun x => fst kv +:+ "=" +:+ x) <$> snd kv) (map_to_list v)).

Fixpoint json_value (v : Value) : string :=
  match v with
  | val_string s => dq +:+ s +:+ dq
  | val_ptr None => "null"
  | val_ptr (Some v') => json_value v'
  | v => sprint v
  end.

Definition json_text (d : JSONDoc) : string + error :=
  match d with
  | json_null => inl ("null" +:+ lf)
  | json_object ms =>
      inl ("{" +:+ join "," ((fun kv => dq +:+ fst kv +:+ dq +:+ ":" +:+ json_value (snd kv)) <$> ms)
           +:+ "}" +:+ lf)
  end.

(** The platform: [env] is the value of the variable MTS_AUTH_TOKEN. *)
Definition platform (env : string) : Platform := {|
  os_Getenv := fun key => if String.eqb key authTokenEnvVar then env else EmptyString;
  uuid_New := fun n => "id-" +:+ Z_to_string (Z.of_nat n);
  base64_EncodeToString := base64;
  strconv_Quote := fun s => dq +:+ s +:+ dq;
  fmt_Sprint := sprint;
  http_StatusText := StatusText;
  http_DefaultTransport := fun _ => inr (errForeign "no network");
  http_NewRequest_err := fun _ _ => None;
  httputil_DumpRequestOut := dump_request;
  httputil_DumpResponse := dump_response;
  url_Values_Encode := encode_values;
  json_Encode := json_text;
  slog_Default := slog_New (NewTextHandler os_Stderr LevelInfo)
|}.

(** The error envelope with code 1001 and text Invalid token. *)
Definition envelope_1001 : string :=
  "{" +:+ dq +:+ "error" +:+ dq +:+ ":{" +:+ dq +:+ "error_code" +:+ dq +:+ ":1001,"
  +:+ dq +:+ "error_text" +:+ dq +:+ ":" +:+ dq +:+ "Invalid token" +:+ dq +:+ "}}".

(** An envelope whose code is a JSON string and whose text is boom: not the
    shape of [Error], whose code is an int. *)
Definition envelope_quoted_code : string :=
  "{" +:+ dq +:+ "error" +:+ dq +:+ ":{" +:+ dq +:+ "error_code" +:+ dq +:+ ":"
  +:+ dq +:+ "1001" +:+ dq +:+ ","
  +:+ dq +:+ "error_text" +:+ dq +:+ ":" +:+ dq +:+ "boom" +:+ dq +:+ "}}".

(** A decoder that knows the two envelopes above and fails on any other
    text, leaving the value as it was.  On the second envelope it does what
    encoding/json does on a member of the wrong type: it skips the member,
    stores the members that follow and reports the mismatch at the end. *)
#[export] Instance decode_ErrorResponse : JSONDecoder ErrorResponse :=
  fun body =>
    if String.eqb body envelope_1001
    then (mkErrorResponse (mkError 1001 "Invalid token"), None)
    else if String.eqb body envelope_quoted_code
    then (mkErrorResponse (mkError 0 "boom"),
          Some (errForeign
                  "json: cannot unmarshal string into Go struct field Error.error.error_code of type int"))
    else (mkErrorResponse (mkError 0 EmptyString), Some (errForeign "EOF")).

Definition department_dep_1 : string :=
  "{" +:+ dq +:+ "department" +:+ dq +:+ ":{" +:+ dq +:+ "department_id" +:+ dq +:+ ":"
  +:+ dq +:+ "dep_1" +:+ dq +:+ "," +:+ dq +:+ "name" +:+ dq +:+ ":" +:+ dq +:+ "Engineering"
  +:+ dq +:+ "}}".

#[export] Instance decode_DepartmentResponse : JSONDecoder DepartmentResponse :=
  fun body =>
    if String.eqb body department_dep_1
    then (mkDepartmentResponse (mkDepartment "dep_1" "Engineering"), None)
    else (mkDepartmentResponse (mkDepartment EmptyString EmptyString), Some (errForeign "EOF")).

Definition empty_Employee : Employee :=
  mkEmployee EmptyString EmptyString EmptyString EmptyString EmptyString EmptyString
    EmptyString EmptyString EmptyString EmptyString EmptyString EmptyString ∅.

#[export] Instance decode_EmployeeResponse : JSONDecoder EmployeeResponse :=
  fun body => (mkEmployeeResponse empty_Employee, Some (errForeign "EOF")).

#[export] Instance decode_DepartmentListResponse : JSONDecoder DepartmentListResponse :=
  fun body => (mkDepartmentListResponse [], Some (errForeign "EOF")).

#[export] Instance decode_EmployeeListResponse : JSONDecoder EmployeeListResponse :=
  fun body => (mkEmployeeListResponse [], Some (errForeign "EOF")).

(** A wrapped transport that answers every request with the given status and
    body. *)
Definition answering (status : Z) (body : string) : RoundTripper :=
  fun req => inl (mkResponse status ∅ body None (req_ctx req)).

Definition config (token : string) (debug : bool) (rt : option RoundTripper) : Config :=
  mkConfig EmptyString EmptyString EmptyString EmptyString debug token rt None.

Definition world0 : World := mkWorld [] 0.

Definition request0 : Request :=
  mkRequest ctx_Background "GET" "https://api.mytimestation.com/v1.2/departments" ∅ None.

(** The request that creates the department Engineering. *)
Definition create_department : Request :=
  mkRequest ctx_Background "POST" "https://api.mytimestation.com/v1.2/departments"
    {["Content-Type" := ["application/x-www-form-urlencoded"]]}
    (Some "name=Engineering").

(** The employee Bob of the department dep_1, a painter: no name of a
    department, no identifier of the company, no rate, no PIN and no custom
    field. *)
Definition painter_Bob : EmployeeCreateRequest :=
  mkEmployeeCreateRequest "Bob" "dep_1" EmptyString EmptyString "Painter" 0%float
    EmptyString ∅.

(** The request that creates him. *)
Definition create_employee : Request :=
  mkRequest ctx_Background "POST" "https://api.mytimestation.com/v1.2/employees"
    {["Content-Type" := ["application/x-www-form-urlencoded"]]}
    (Some (encode_values
             {[ "name" := ["Bob"]; "department_id" := ["dep_1"]; "title" := ["Painter"] ]})).

Definition rename_to_Bob_Ross : EmployeeUpdateRequest :=
  mkEmployeeUpdateRequest (Some "Bob Ross") None None None None None None ∅ None.

(** The request that renames the employee emp_1 to Bob Ross. *)
Definition update_employee : Request :=
  mkRequest ctx_Background "PUT" "https://api.mytimestation.com/v1.2/employees/emp_1"
    {["Content-Type" := ["application/json"]]}
    (Some ("{" +:+ dq +:+ "name" +:+ dq +:+ ":" +:+ dq +:+ "Bob Ross" +:+ dq +:+ "}" +:+ lf)).

End Fixture.


(** ** The sweeper: collecting and adding

    The methods that change the sweeper return the sweeper they leave
    behind. *)

Definition set_employeeIDs (ids : list string) (s : Sweeper) : Sweeper :=
  mkSweeper (s_c s) (s_logr s) ids (departmentIDs s).

Definition set_departmentIDs (ids : list string) (s : Sweeper) : Sweeper :=
  mkSweeper (s_c s) (s_logr s) (employeeIDs s) ids.

(** [strings.HasPrefix] *)
Definition strings_HasPrefix (s prefix : string) : bool := String.prefix prefix s.

(** The loops of [CollectWithPrefix]: the identifiers of the resources whose
    name has the prefix are appended, in the order of the listing. *)
Fixpoint collect_loop {R} (name id : R -> string) (prefix : string) (rs : list R)
    (ids : list string) : list string :=
  match rs with
  | [] => ids
  | r :: rs' =>
      collect_loop name id prefix rs'
        (if strings_HasPrefix (name r) prefix then ids ++ [id r] else ids)
  end.

Section Collect.
Context (P : Platform) {errDecoder : JSONDecoder ErrorResponse}
  {decDepartment : JSONDecoder DepartmentResponse}
  {decDepartments : JSONDecoder DepartmentListResponse}
  {decEmployee : JSONDecoder EmployeeResponse}
  {decEmployees : JSONDecoder EmployeeListResponse}.

Definition CollectWithPrefix (s : Sweeper) ctx (prefix : string) : M (option error * Sweeper) :=
  r ← Employees_List P (s_c s) ctx;
  match snd r with
  | Some err => mret (Some err, s)
  | None =>
      let employees := default [] (fst r) in
      let s := set_employeeIDs
                 (collect_loop emp_Name emp_ID prefix employees (employeeIDs s)) s in
      r ← Departments_List P (s_c s) ctx;
      match snd r with
      | Some err => mret (Some err, s)
      | None =>
          let departments := default [] (fst r) in
          let s := set_departmentIDs
                     (collect_loop dep_Name dep_ID prefix departments (departmentIDs s)) s in
          mret (None, s)
      end
  end.

End Collect.

Definition AddEmployee (id : string) (s : Sweeper) : Sweeper :=
  set_employeeIDs (employeeIDs s ++ [id]) s.

Definition AddDepartment (id : string) (s : Sweeper) : Sweeper :=
  set_departmentIDs (departmentIDs s ++ [id]) s.

(** ** The sweeper of the package's own tests

    The earlier helper of the test file: its error list and its deletion of
    everything collected.  The result of [deleteAll] is Go's [error]: nil, or
    the list of the errors met. *)

Definition testResourcePrefix : string := "gomtstest".

Record testSweeper : Type := mkTestSweeper {
  ts_c : client;
  opts_employeeIDs : list string;
  opts_departmentIDs : list string
}.

Section TestSweeper.
Context (P : Platform) {errDecoder : JSONDecoder ErrorResponse}
  {decDepartment : JSONDecoder DepartmentResponse}
  {decDepartments : JSONDecoder DepartmentListResponse}
  {decEmployee : JSONDecoder EmployeeResponse}
  {decEmployees : JSONDecoder EmployeeListResponse}.

(** The method [Error] of [errorList]: the header, then every error between
    a space and a semicolon, all written to the builder. *)
Definition errorList_Error (e : list error) : string :=
  foldl (fun sb err => sb +:+ (" " +:+ error_string P err +:+ ";")) "errors:" e.

Fixpoint deleteAll_loop {R} (delete : string -> M (option R * option error))
    (ids : list string) (errList : list error) : M (list error) :=
  match ids with
  | [] => mret errList
  | id :: ids' =>
      r ← delete id;
      let errList := match snd r with
                     | Some err => errList ++ [err]
                     | None => errList
                     end in
      deleteAll_loop delete ids' errList
  end.

Definition deleteAll (s : testSweeper) ctx : M (option (list error)) :=
  let errList := [] in
  errList ← deleteAll_loop (Employees_Delete P (ts_c s) ctx) (opts_employeeIDs s) errList;
  errList ← deleteAll_loop (Departments_Delete P (ts_c s) ctx) (opts_departmentIDs s) errList;
  if (length errList =? 0)%nat then mret None
  else mret (Some errList).

Definition collectAll (s : testSweeper) ctx : M (option error * testSweeper) :=
  r ← Employees_List P (ts_c s) ctx;
  match snd r with
  | Some err => mret (Some err, s)
  | None =>
      let employees := default [] (fst r) in
      let s := mkTestSweeper (ts_c s)
                 (collect_loop emp_Name emp_ID testResourcePrefix employees
                    (opts_employeeIDs s))
                 (opts_departmentIDs s) in
      r ← Departments_List P (ts_c s) ctx;
      match snd r with
      | Some err => mret (Some err, s)
      | None =>
          let departments := default [] (fst r) in
          let s := mkTestSweeper (ts_c s) (opts_employeeIDs s)
                     (collect_loop dep_Name dep_ID testResourcePrefix departments
                        (opts_departmentIDs s)) in
          mret (None, s)
      end
  end.

End TestSweeper.

(** ** A platform on which everything outside fails

    The platform of the examples, but with a request constructor, dumpers
    and a JSON encoder that return errors. *)

Definition broken_platform : Platform := {|
  os_Getenv := os_Getenv (Fixture.platform "");
  uuid_New := uuid_New (Fixture.platform "");
  base64_EncodeToString := Fixture.base64;
  strconv_Quote := strconv_Quote (Fixture.platform "");
  fmt_Sprint := Fixture.sprint;
  http_StatusText := Fixture.StatusText;
  http_DefaultTransport := fun _ => inr (errForeign "no network");
  http_NewRequest_err := fun _ _ => Some (errForeign "invalid URL");
  httputil_DumpRequestOut := fun _ => (EmptyString, Some (errForeign "dump failed"));
  httputil_DumpResponse := fun _ => (EmptyString, Some (errForeign "dump failed"));
  url_Values_Encode := Fixture.encode_values;
  json_Encode := fun _ => inr (errForeign "unsupported value");
  slog_Default := slog_New (NewTextHandler os_Stderr LevelInfo)
|}.


(** A wrapped transport whose bodies fail to close. *)
Definition answering_unclosable (status : Z) (body : string) : RoundTripper :=
  fun req => inl (mkResponse status ∅ body (Some (errForeign "already closed")) (req_ctx req)).
(** * Vocabulary of the properties

    Names for what the statements below talk about: the events a run adds to
    the trace, the request as the transport dumps it and as it hands it on,
    and the value of each function written without the trace. *)

Definition set_Debug (d : bool) (c : Config) : Config :=
  mkConfig (Protocol c) (UserAgent c) (Host c) (APIVersion c) d (AuthToken c)
    (Transport c) (LogHandler c).

(** The events a computation adds to the trace. *)
Definition events {A} (m : M A) (w : World) : list Event :=
  drop (length (trace w)) (trace (snd (m w))).

Definition extend (w : World) (evs : list Event) : World :=
  mkWorld (trace w ++ evs) (drawn w).

Definition in_2xx (resp : Response) : bool :=
  negb ((StatusCode resp <? 200) || (StatusCode resp >? 299)).

Definition is_close (e : Event) : bool :=
  match e with ev_close _ => true | _ => false end.

Definition is_roundtrip (e : Event) : bool :=
  match e with ev_roundtrip _ => true | _ => false end.

Definition log_records (evs : list Event) : list LogRecord :=
  omap (fun e => match e with ev_log r => Some r | _ => None end) evs.

Definition Attr_key (a : Attr) : string :=
  match a with
  | slog_String key _ => key
  | slog_Any key _ => key
  end.

(** Whether a record carries an attribute of the given key, be it through
    its logger or in the call. *)
Definition has_attr (key : string) (r : LogRecord) : bool :=
  existsb (fun s => match s with
                    | scope_attr a => String.eqb (Attr_key a) key
                    | scope_group _ => false
                    end) (log_scopes (rec_logger r))
  || existsb (fun a => String.eqb (Attr_key a) key) (rec_attrs r).

(** [strings.Contains] *)
Fixpoint strings_Contains (s substr : string) : bool :=
  String.prefix substr s
  || match s with
     | EmptyString => false
     | String _ s' => strings_Contains s' substr
     end.

Definition close_events (c : client) (resp : Response) : list Event :=
  ev_close resp
  :: match body_closeErr resp with
     | Some e =>
         [ev_log (mkLogRecord (c_logr c) (resp_Request_ctx resp) LevelError
                    "failed to close response body" [slog_Any "error" e])]
     | None => []
     end.

(** The members the spec expects of each request struct, written out from
    the tags of the source: each field under the name in its tag, and a
    field marked omitempty left out when it holds the zero value of its
    type (the empty string, the number zero, the empty map, the nil
    pointer). *)
Definition unless (zero : bool) (key : string) (v : Value) : list (string * Value) :=
  if zero then [] else [(key, v)].

Definition DepartmentCreateRequest_expected (r : DepartmentCreateRequest) :
    list (string * Value) :=
  [("name", val_string (dcr_Name r))].

Definition EmployeeCreateRequest_expected (r : EmployeeCreateRequest) :
    list (string * Value) :=
  [("name", val_string (ecr_Name r))]
  ++ unless (String.eqb (ecr_DepartmentID r) "") "department_id"
       (val_string (ecr_DepartmentID r))
  ++ unless (String.eqb (ecr_DepartmentName r) "") "department_name"
       (val_string (ecr_DepartmentName r))
  ++ unless (String.eqb (ecr_CustomEmployeeID r) "") "custom_employee_id"
       (val_string (ecr_CustomEmployeeID r))
  ++ unless (String.eqb (ecr_Title r) "") "title" (val_string (ecr_Title r))
  ++ unless (PrimFloat.eqb (ecr_HourlyRate r) 0) "hourly_rate"
       (val_float64 (ecr_HourlyRate r))
  ++ unless (String.eqb (ecr_PIN r) "") "pin" (val_string (ecr_PIN r))
  ++ unless (bool_decide (ecr_CustomFields r = ∅)) "custom_fields"
       (val_map (ecr_CustomFields r)).

(** A pointer under a key: left out when nil. *)
Definition unless_nil (key : string) (p : option Value) : list (string * Value) :=
  match p with
  | None => []
  | Some v => [(key, val_ptr (Some v))]
  end.

Definition EmployeeUpdateRequest_expected (r : EmployeeUpdateRequest) :
    list (string * Value) :=
  [("name", val_ptr (val_string <$> eur_Name r))]
  ++ unless_nil "department_id" (val_string <$> eur_DepartmentID r)
  ++ unless_nil "department_name" (val_string <$> eur_DepartmentName r)
  ++ unless_nil "custom_employee_id" (val_string <$> eur_CustomEmployeeID r)
  ++ unless_nil "title" (val_string <$> eur_Title r)
  ++ unless_nil "hourly_rate" (val_float64 <$> eur_HourlyRate r)
  ++ unless_nil "pin" (val_string <$> eur_PIN r)
  ++ unless (bool_decide (eur_CustomFields r = ∅)) "custom_fields"
       (val_map (eur_CustomFields r))
  ++ unless_nil "convert_primary_department" (val_bool <$> eur_ConvertPrimaryDepartment r).

(** The members a walk over the fields selects under a tag key. *)
Definition members_under (tagKey : string) (fs : list Field) : list (string * Value) :=
  omap (fun f => (fun name => (name, f_value f)) <$> field_key tagKey f) fs.

Section Vocabulary.
Context (P : Platform) {errDecoder : JSONDecoder ErrorResponse}.

(** What the dump of a response returns, and the response it leaves: the
    same response when its body closed (or is [http.NoBody], which is not
    closed), the response read to its end when closing failed. *)
Definition response_dump (resp : Response) : string * option error :=
  match body_closeErr resp with
  | Some e => (EmptyString, Some e)
  | None =>
      match httputil_DumpResponse P resp with
      | (_, Some e) => (EmptyString, Some e)
      | (bytes, None) => (bytes, None)
      end
  end.

Definition left_by_dump (resp : Response) : Response :=
  match body_closeErr resp with
  | Some _ => drained_Response resp
  | None => resp
  end.

(** The request and the response as the transport goes on with them: as
    they were with debug off, as the dump left them with debug on. *)
Definition logged_request (t : mtsTransport) (req : Request) : Request :=
  if Debug (conf t) then snd (DumpRequestOut P req) else req.

Definition logged_response (t : mtsTransport) (resp : Response) : Response :=
  if Debug (conf t) then left_by_dump resp else resp.

(** The request at the time of the dump, and the request handed to the
    wrapped transport. *)
Definition prepared (t : mtsTransport) (req : Request) : Request :=
  set_Header (Header_Add "Accept" "application/json")
    (set_Header (Header_Add "User-Agent" (GetUserAgent (conf t))) req).

Definition outbound (t : mtsTransport) (req : Request) : Request :=
  SetBasicAuth P (GetAuthToken P (conf t)) "" (logged_request t (prepared t req)).

(** The value [mapResponseToError] returns. *)
Definition mapped_error (resp : Response) : Error :=
  let err := er_Error (fst (json_Decode (T := ErrorResponse) (resp_Body resp))) in
  let err :=
    if ErrorCode err =? 0 then mkError (StatusCode resp) (ErrorText err) else err in
  if String.eqb (ErrorText err) ""
  then mkError (ErrorCode err) (http_StatusText P (ErrorCode err)) else err.

(** What [logRequest] and [logResponse] hand to the loggers. *)
Definition dump_events (lg : Logger) (ctx : Context) (correlationID : string)
    (failure message key : string) (dump : string * option error) : list Event :=
  match snd dump with
  | Some e =>
      [ev_log (mkLogRecord (With (slog_String "correlationID" correlationID) lg) ctx
                 LevelError failure [slog_Any "error" e])]
  | None => []
  end
  ++ [ev_log (mkLogRecord lg ctx LevelDebug message [slog_String key (fst dump)])].

Definition request_events (t : mtsTransport) (req : Request) (id : string) : list Event :=
  dump_events (logr t) (req_ctx req) id "failed to dump request" "outbound request"
    "request" (fst (DumpRequestOut P req)).

Definition response_events (t : mtsTransport) (resp : Response) (id : string) : list Event :=
  (if is_NoBody resp then [] else [ev_close resp])
  ++ dump_events (logr t) (resp_Request_ctx resp) id "failed to dump response"
       "received response" "r" (response_dump resp).

Definition RoundTrip_events (t : mtsTransport) (req : Request) (id : string) : list Event :=
  (if Debug (conf t) then request_events t (prepared t req) id else [])
  ++ [ev_roundtrip (outbound t req)]
  ++ match getWrappedTransport P t (outbound t req) with
     | inr _ => []
     | inl resp =>
         (if Debug (conf t) then response_events t resp id else [])
         ++ (if in_2xx resp then [] else [ev_close (logged_response t resp)])
     end.

Definition RoundTrip_result (t : mtsTransport) (req : Request) : Response + error :=
  match getWrappedTransport P t (outbound t req) with
  | inr err => inr (errWrap "request failed" err)
  | inl resp =>
      if in_2xx resp then inl (logged_response t resp)
      else inr (errService (mapped_error (logged_response t resp)))
  end.

(** The form values of a list of members: under each key the one text of
    its value, a string as it is and any other value as [fmt.Sprint] prints
    it. *)
Definition form_text (v : Value) : string :=
  match v with
  | val_string s => s
  | _ => fmt_Sprint P v
  end.

Definition form_values (members : list (string * Value)) : gmap string (list string) :=
  list_to_map ((fun kv => (fst kv, [form_text (snd kv)])) <$> members).

(** The debug record of the outbound request holds the dump of the request
    that goes to the wrapped transport. *)
Definition dump_is_wire_request (evs : list Event) : Prop :=
  forall lg ctx bytes sent,
    ev_log (mkLogRecord lg ctx LevelDebug "outbound request" [slog_String "request" bytes])
      ∈ evs ->
    ev_roundtrip sent ∈ evs ->
    bytes = fst (httputil_DumpRequestOut P sent).

End Vocabulary.

Ltac run_M :=
  repeat (progress unfold mbind, M_bind, mret, M_ret, when, ErrorContext, DebugContext,
            InfoContext, Logger_log, Body_Close, emit);
  cbn.


(** ** Vocabulary for whole runs *)

Definition roundtrips (evs : list Event) : list Request :=
  omap (fun e => match e with ev_roundtrip r => Some r | _ => None end) evs.




Section RunVocabulary.
Context (P : Platform) {errDecoder : JSONDecoder ErrorResponse}.

(** The value, the events and the number of identifiers of a round trip,
    with or without a token. *)
Definition has_token (t : mtsTransport) : bool :=
  negb (String.eqb (GetAuthToken P (conf t)) "").

Definition round_result (t : mtsTransport) (req : Request) : Response + error :=
  if has_token t then RoundTrip_result P t req else inr ErrMissingToken.

Definition round_events (t : mtsTransport) (req : Request) (id : string) : list Event :=
  if has_token t then RoundTrip_events P t req id else [].

Definition round_draws (t : mtsTransport) : nat := if has_token t then 1 else 0.

(** The same for a call of the dispatcher. *)
Definition do_result {T} `{JSONDecoder T} (c : client) (ctx : Context)
    (method path : string) (body : option Body) : option T * option error :=
  match newHTTPRequest P ctx method (GetBaseURL (c_conf c) +:+ path) body with
  | inr err => (None, Some err)
  | inl req =>
      match round_result (httpClient c) req with
      | inl resp =>
          (Some (fst (json_Decode (T := T) (resp_Body resp))),
           snd (json_Decode (T := T) (resp_Body resp)))
      | inr err => (None, Some (errURL (urlErrorOp (req_Method req)) (req_URL req) err))
      end
  end.

Definition do_events (c : client) (ctx : Context) (method path : string)
    (body : option Body) (id : string) : list Event :=
  match newHTTPRequest P ctx method (GetBaseURL (c_conf c) +:+ path) body with
  | inr _ => []
  | inl req =>
      round_events (httpClient c) req id
      ++ match round_result (httpClient c) req with
         | inl resp => close_events c resp
         | inr _ => []
         end
  end.

Definition do_draws (c : client) (ctx : Context) (method path : string)
    (body : option Body) : nat :=
  match newHTTPRequest P ctx method (GetBaseURL (c_conf c) +:+ path) body with
  | inr _ => 0%nat
  | inl _ => round_draws (httpClient c)
  end.

End RunVocabulary.


Definition info_records (evs : list Event) : list (string * list Attr) :=
  (fun r => (rec_msg r, rec_attrs r))
  <$> List.filter (fun r => rec_level r =? LevelInfo) (log_records evs).

(** The events of a loop of the sweeper over [ids], when the deletion of
    [id] adds the events [evs id] and draws [draws id] identifiers: [n]
    identifiers have been drawn before the loop. *)
Fixpoint loop_events (P : Platform) (evs : string -> string -> list Event)
    (draws : string -> nat) (info : string -> list Event) (ids : list string) (n : nat) :
    list Event :=
  match ids with
  | [] => []
  | id :: ids' =>
      evs id (uuid_New P n) ++ info id
      ++ loop_events P evs draws info ids' (n + draws id)
  end.

Definition loop_draws (draws : string -> nat) (ids : list string) : nat :=
  foldr (fun id n => (draws id + n)%nat) 0%nat ids.

(** Two listings the examples decode: an employee and a department of the
    tests, and one of each that is not. *)
Definition listed_employees : JSONDecoder EmployeeListResponse :=
  fun _ =>
    (mkEmployeeListResponse
       [ mkEmployee "emp_1" "gomtstest-bob" "" "" "" "" "" "" "" "" "" "" ∅;
         mkEmployee "emp_2" "alice" "" "" "" "" "" "" "" "" "" "" ∅ ],
     None).

Definition listed_departments : JSONDecoder DepartmentListResponse :=
  fun _ =>
    (mkDepartmentListResponse
       [ mkDepartment "dep_1" "Engineering"; mkDepartment "dep_2" "gomtstest-art" ],
     None).
(** * Properties *)

(** ** Configuration *)

Lemma eqb_empty_false (s : string) : s <> "" -> String.eqb s "" = false.
Proof. intros H. apply String.eqb_neq. exact H. Qed.

Lemma GetUserAgent_cases (c : Config) :
  GetUserAgent c = if String.eqb (AuthToken c) "" then defaultUserAgent else UserAgent c.
Proof. reflexivity. Qed.

Lemma GetProtocol_default (c : Config) : Protocol c = "" -> GetProtocol c = defaultProtocol.
Proof. intros H. unfold GetProtocol. rewrite H. reflexivity. Qed.

Lemma GetBaseURL_default :
  GetBaseURL (mkConfig "" "" "" "" false "" None None) = "https://api.mytimestation.com/v1.2".
Proof. reflexivity. Qed.

(** C10: with a log handler configured the logger is built from that handler
    and the debug flag does not enter; without one the logger is the text
    logger on standard error, at level debug when the flag is set and at
    level info otherwise, so there the flag does make a difference. *)
Theorem GetLogger_handler_or_level (c : Config) :
  match LogHandler c with
  | Some h =>
      GetLogger c = slog_New h /\ forall d, GetLogger (set_Debug d c) = slog_New h
  | None =>
      GetLogger c
      = slog_New (NewTextHandler os_Stderr (if Debug c then LevelDebug else LevelInfo))
      /\ GetLogger (set_Debug true c) <> GetLogger (set_Debug false c)
  end.
Proof.
  destruct c as [pr ua ho ver dbg tok tr [h|]]; cbn.
  - split; [reflexivity | intros d; reflexivity].
  - split; [destruct dbg; reflexivity | discriminate].
Qed.

(** C6: the getter tests the auth token, not the user agent.  A configured
    user agent is dropped when no token is configured, and with a token and
    no user agent the result is empty instead of the default. *)
Theorem GetUserAgent_tests_AuthToken :
  GetUserAgent (mkConfig "" "my-custom-user-agent" "" "" false "" None None)
  = defaultUserAgent
  /\ GetUserAgent (mkConfig "" "" "" "" false "secret" None None) = "".
Proof. split; reflexivity. Qed.

(** ** Runs of the transport *)

Lemma events_extend {A} (m : M A) (w : World) (a : A) (evs : list Event) (n : nat) :
  m w = (a, mkWorld (trace w ++ evs) n) -> events m w = evs.
Proof. intros H. unfold events. rewrite H. cbn. apply drop_app_length. Qed.

Lemma in_2xx_true (resp : Response) :
  in_2xx resp = true <-> 200 <= StatusCode resp <= 299.
Proof.
  unfold in_2xx. rewrite negb_true_iff, orb_false_iff, Z.ltb_ge, Z.gtb_ltb, Z.ltb_ge. lia.
Qed.


Section TransportRuns.
Context (P : Platform) {errDecoder : JSONDecoder ErrorResponse}.

Lemma mapResponseToError_run (resp : Response) (w : World) :
  mapResponseToError P resp w = (mapped_error P resp, extend w [ev_close resp]).
Proof. reflexivity. Qed.

Lemma logRequest_run t req id w :
  logRequest P t req id w
  = (snd (DumpRequestOut P req), extend w (request_events P t req id)).
Proof.
  unfold logRequest, request_events, dump_events.
  destruct (DumpRequestOut P req) as [[bytes err] req'] eqn:E.
  assert (Hctx : req_ctx req' = req_ctx req).
  { unfold DumpRequestOut in E.
    destruct (req_Body req), (req_Body_closeErr req),
      (httputil_DumpRequestOut P req) as [b [e'|]]; injection E as <- <- <-; reflexivity. }
  rewrite Hctx. destruct err as [e|]; run_M; unfold extend.
  - by rewrite <- app_assoc.
  - reflexivity.
Qed.

Lemma left_by_dump_ctx (resp : Response) :
  resp_Request_ctx (left_by_dump resp) = resp_Request_ctx resp.
Proof. unfold left_by_dump. destruct (body_closeErr resp); reflexivity. Qed.

Lemma left_by_dump_status (resp : Response) :
  StatusCode (left_by_dump resp) = StatusCode resp.
Proof. unfold left_by_dump. destruct (body_closeErr resp); reflexivity. Qed.



Lemma logResponse_run t resp id w :
  logResponse P t resp id w = (left_by_dump resp, extend w (response_events P t resp id)).
Proof.
  unfold logResponse, DumpResponse, response_events, dump_events, response_dump,
    left_by_dump, body_closeErr, is_NoBody.
  destruct (resp_ReadCloser resp) as [|content [e|]] eqn:E; run_M;
    unfold body_closeErr; rewrite ?E; unfold extend; cbn.
  - destruct (httputil_DumpResponse P resp) as [bytes [e|]]; cbn;
      rewrite <- ?app_assoc; reflexivity.
  - rewrite <- !app_assoc. reflexivity.
  - destruct (httputil_DumpResponse P resp) as [bytes [e|]]; cbn;
      rewrite <- !app_assoc; reflexivity.
Qed.

Lemma RoundTrip_missing (t : mtsTransport) req w :
  GetAuthToken P (conf t) = "" -> RoundTrip P t req w = (inr ErrMissingToken, w).
Proof. intros H. unfold RoundTrip. rewrite H. reflexivity. Qed.

Lemma RoundTrip_run (t : mtsTransport) req w :
  GetAuthToken P (conf t) <> "" ->
  RoundTrip P t req w
  = (RoundTrip_result P t req,
     mkWorld (trace w ++ RoundTrip_events P t req (uuid_New P (drawn w))) (S (drawn w))).
Proof.
  intros Htok. unfold RoundTrip, RoundTrip_result, RoundTrip_events, in_2xx.
  rewrite (eqb_empty_false _ Htok).
  fold (prepared t req).
  unfold outbound, logged_request, logged_response.
  unfold uuid_New_String, wrapped_RoundTrip. run_M.
  destruct (Debug (conf t)); cbn.
  - rewrite logRequest_run. unfold extend; cbn.
    destruct (getWrappedTransport P t _) as [resp|err]; cbn.
    + rewrite logResponse_run. unfold extend; cbn. rewrite left_by_dump_status.
      destruct ((StatusCode resp <? 200) || (StatusCode resp >? 299)); cbn;
        rewrite ?mapResponseToError_run; unfold extend; cbn;
        rewrite <- ?app_assoc; cbn; rewrite ?app_nil_r; reflexivity.
    + rewrite <- ?app_assoc. reflexivity.
  - destruct (getWrappedTransport P t _) as [resp|err]; cbn.
    + destruct ((StatusCode resp <? 200) || (StatusCode resp >? 299)); cbn;
        rewrite ?mapResponseToError_run; unfold extend; cbn;
        rewrite <- ?app_assoc; cbn; reflexivity.
    + reflexivity.
Qed.

Lemma RoundTrip_events_run (t : mtsTransport) req w :
  GetAuthToken P (conf t) <> "" ->
  events (RoundTrip P t req) w = RoundTrip_events P t req (uuid_New P (drawn w)).
Proof. intros H. eapply events_extend. apply RoundTrip_run, H. Qed.


(** The dumps hand over no close of a body and no call of the transport. *)
Lemma dump_events_quiet lg ctx id failure message key dump :
  forallb (fun e => negb (is_close e) && negb (is_roundtrip e))
    (dump_events lg ctx id failure message key dump) = true.
Proof. unfold dump_events. destruct (snd dump); reflexivity. Qed.

(** Every debug record of a run goes through the transport's own logger. *)
Lemma dump_events_debug_logger lg ctx id failure message key dump :
  Forall (fun r => rec_level r = LevelDebug -> rec_logger r = lg)
    (log_records (dump_events lg ctx id failure message key dump)).
Proof.
  unfold dump_events. destruct (snd dump); cbn; repeat constructor; cbn; discriminate.
Qed.

(** C4: with no token configured the resolved token is the value of the
    environment variable; and when that is empty too, every request fails
    with the missing-token error and leaves the world as it was: no
    identifier drawn, nothing logged, the wrapped transport not called. *)
Theorem GetAuthToken_env_or_missing (c : Config) :
  AuthToken c = "" ->
  GetAuthToken P c = os_Getenv P authTokenEnvVar
  /\ (os_Getenv P authTokenEnvVar = "" ->
      forall (t : mtsTransport) (req : Request) (w : World),
        conf t = c -> RoundTrip P t req w = (inr ErrMissingToken, w)).
Proof.
  intros Hc. assert (Hg : GetAuthToken P c = os_Getenv P authTokenEnvVar).
  { unfold GetAuthToken. rewrite Hc. reflexivity. }
  split; [exact Hg|].
  intros He t req w <-. apply RoundTrip_missing. rewrite Hg. exact He.
Qed.

(** The dump of a request touches neither its context nor its headers. *)
Lemma DumpRequestOut_ctx (req : Request) :
  req_ctx (snd (DumpRequestOut P req)) = req_ctx req.
Proof.
  unfold DumpRequestOut.
  destruct (req_Body req), (req_Body_closeErr req),
    (httputil_DumpRequestOut P req) as [b [e'|]]; reflexivity.
Qed.

Lemma DumpRequestOut_Header (req : Request) :
  req_Header (snd (DumpRequestOut P req)) = req_Header req.
Proof.
  unfold DumpRequestOut.
  destruct (req_Body req), (req_Body_closeErr req),
    (httputil_DumpRequestOut P req) as [b [e'|]]; reflexivity.
Qed.



Lemma DumpRequestOut_ok (req : Request) :
  snd (fst (DumpRequestOut P req)) = None ->
  fst (DumpRequestOut P req) = httputil_DumpRequestOut P req
  /\ snd (DumpRequestOut P req) = req.
Proof.
  unfold DumpRequestOut.
  destruct (req_Body req), (req_Body_closeErr req),
    (httputil_DumpRequestOut P req) as [b [e'|]]; cbn; intros H;
    try discriminate H; split; reflexivity.
Qed.

Lemma logged_response_clean (t : mtsTransport) (resp : Response) :
  Debug (conf t) = false \/ body_closeErr resp = None -> logged_response t resp = resp.
Proof.
  unfold logged_response, left_by_dump. intros [H|H]; rewrite H; [reflexivity|].
  destruct (Debug (conf t)); reflexivity.
Qed.



(** C1, as the code has it: with debug on, the headers User-Agent and Accept
    are added before the dump, and the Authorization header is set after the
    dump, on the request as the dump left it, and before that request goes
    to the wrapped transport, which is called once.  The debug record holds
    the bytes the dump returned: those of the request without the Basic
    credentials when the dump succeeded.  The dumped request and the request
    on the wire agree on every header but Authorization: there the dumped
    request holds whatever the caller had put, the wire the Basic
    credentials. *)
Theorem dump_precedes_basic_auth (t : mtsTransport) (req : Request) (w : World) :
  Debug (conf t) = true ->
  GetAuthToken P (conf t) <> "" ->
  let logged := prepared t req in
  let sent := outbound P t req in
  (exists pre post,
      events (RoundTrip P t req) w
      = pre
        ++ [ev_log (mkLogRecord (logr t) (req_ctx req) LevelDebug "outbound request"
                      [slog_String "request" (fst (fst (DumpRequestOut P logged)))]);
            ev_roundtrip sent]
        ++ post
      /\ forallb (fun e => negb (is_roundtrip e)) (pre ++ post) = true)
  /\ (snd (fst (DumpRequestOut P logged)) = None ->
      fst (fst (DumpRequestOut P logged)) = fst (httputil_DumpRequestOut P logged))
  /\ req_Header logged
     = Header_Add "Accept" "application/json"
         (Header_Add "User-Agent" (GetUserAgent (conf t)) (req_Header req))
  /\ req_Header logged !! "Authorization" = req_Header req !! "Authorization"
  /\ sent
     = set_Header
         (Header_Set "Authorization"
            ("Basic " +:+ base64_EncodeToString P (GetAuthToken P (conf t) +:+ ":" +:+ "")))
         (snd (DumpRequestOut P logged))
  /\ req_Header sent
     = Header_Set "Authorization"
         ("Basic " +:+ base64_EncodeToString P (GetAuthToken P (conf t) +:+ ":" +:+ ""))
         (req_Header logged)
  /\ (forall k, k <> "Authorization" -> req_Header sent !! k = req_Header logged !! k).
Proof.
  intros Hdebug Htok logged sent.
  assert (Hsent : sent
     = set_Header
         (Header_Set "Authorization"
            ("Basic " +:+ base64_EncodeToString P (GetAuthToken P (conf t) +:+ ":" +:+ "")))
         (snd (DumpRequestOut P logged))).
  { subst sent. unfold outbound, logged_request. rewrite Hdebug. reflexivity. }
  assert (Hhdr : req_Header sent
     = Header_Set "Authorization"
         ("Basic " +:+ base64_EncodeToString P (GetAuthToken P (conf t) +:+ ":" +:+ ""))
         (req_Header logged)).
  { rewrite Hsent. unfold set_Header. cbn. rewrite DumpRequestOut_Header. reflexivity. }
  split; [|split; [|split; [|split; [|split; [|split]]]]].
  - rewrite RoundTrip_events_run by exact Htok.
    unfold RoundTrip_events. rewrite Hdebug.
    unfold request_events at 1. unfold dump_events. fold logged. fold sent.
    set (tail := match getWrappedTransport P t sent with
                 | inl resp => _
                 | inr _ => _
                 end).
    exists (match snd (fst (DumpRequestOut P logged)) with
            | Some e =>
                [ev_log (mkLogRecord
                           (With (slog_String "correlationID" (uuid_New P (drawn w))) (logr t))
                           (req_ctx logged) LevelError "failed to dump request"
                           [slog_Any "error" e])]
            | None => []
            end), tail.
    split.
    + rewrite <- !app_assoc. reflexivity.
    + rewrite forallb_app. apply andb_true_intro. split.
      * destruct (snd (fst (DumpRequestOut P logged))); reflexivity.
      * subst tail. destruct (getWrappedTransport P t sent) as [resp|err]; [|reflexivity].
        rewrite forallb_app. apply andb_true_intro. split.
        -- unfold response_events, dump_events.
           destruct (is_NoBody resp), (snd (response_dump P resp)); reflexivity.
        -- destruct (in_2xx resp); reflexivity.
  - intros Hok. apply DumpRequestOut_ok in Hok. destruct Hok as [-> _]. reflexivity.
  - reflexivity.
  - subst logged. unfold prepared, set_Header, Header_Add. cbn.
    rewrite !lookup_insert_ne by discriminate. reflexivity.
  - exact Hsent.
  - exact Hhdr.
  - intros k Hk. rewrite Hhdr. unfold Header_Set.
    apply lookup_insert_ne. congruence.
Qed.

End TransportRuns.

(** ** Runs of the dispatcher *)

Section DispatcherRuns.
Context (P : Platform) {errDecoder : JSONDecoder ErrorResponse}.


(** The body is closed once decoding is over, and a failing close is logged
    through the client's logger. *)
Lemma mapResponseBody_run {T} {dec : JSONDecoder T} (c : client) (resp : Response)
    (w : World) :
  mapResponseBody (T := T) c resp w
  = ((Some (fst (json_Decode (T := T) (resp_Body resp))),
      snd (json_Decode (T := T) (resp_Body resp))),
     extend w (close_events c resp)).
Proof.
  unfold mapResponseBody, close_events, extend.
  destruct (json_Decode (resp_Body resp)) as [out err].
  run_M. destruct (body_closeErr resp); cbn.
  - rewrite <- app_assoc. reflexivity.
  - reflexivity.
Qed.




Lemma roundtrips_dump_events lg ctx id failure message key dump :
  roundtrips (dump_events lg ctx id failure message key dump) = [].
Proof. unfold dump_events. destruct (snd dump); reflexivity. Qed.



End DispatcherRuns.

(** ** The transport on concrete inputs *)

Import Fixture.

(** C4 at a platform whose environment holds a token, and at one whose
    environment holds none. *)
Lemma GetAuthToken_env_or_missing_witness :
  GetAuthToken (Fixture.platform "env-token") (Fixture.config "" false None) = "env-token"
  /\ RoundTrip (Fixture.platform "")
       (httpClient (newClient (Fixture.platform "") (Fixture.config "" true None)))
       Fixture.request0 Fixture.world0
     = (inr ErrMissingToken, Fixture.world0).
Proof.
  split.
  - exact (proj1 (GetAuthToken_env_or_missing (Fixture.platform "env-token")
                    (Fixture.config "" false None) eq_refl)).
  - exact (proj2 (GetAuthToken_env_or_missing (Fixture.platform "")
                    (Fixture.config "" true None) eq_refl)
             eq_refl
             (httpClient (newClient (Fixture.platform "") (Fixture.config "" true None)))
             Fixture.request0 Fixture.world0 eq_refl).
Defined.





(** C1 at a debugging transport over an answering stub. *)
Lemma dump_precedes_basic_auth_witness :
  req_Header (outbound (Fixture.platform "")
                (mkTransport (Fixture.config "tok" true (Some (Fixture.answering 200 "{}")))
                   (slog_New (userHandler "test")))
                Fixture.request0) !! "Authorization"
  = Some ["Basic dG9rOg=="]
  /\ req_Header (prepared
                   (mkTransport (Fixture.config "tok" true (Some (Fixture.answering 200 "{}")))
                      (slog_New (userHandler "test")))
                   Fixture.request0) !! "User-Agent"
     = req_Header (outbound (Fixture.platform "")
                     (mkTransport (Fixture.config "tok" true (Some (Fixture.answering 200 "{}")))
                        (slog_New (userHandler "test")))
                     Fixture.request0) !! "User-Agent".
Proof.
  destruct (dump_precedes_basic_auth (Fixture.platform "")
              (mkTransport (Fixture.config "tok" true (Some (Fixture.answering 200 "{}")))
                 (slog_New (userHandler "test")))
              Fixture.request0 Fixture.world0)
    as (_ & _ & _ & _ & _ & Hsent & Hother).
  - reflexivity.
  - discriminate.
  - split.
    + rewrite Hsent. reflexivity.
    + symmetry. apply Hother. discriminate.
Defined.

(** C1, as the spec has it, fails: the debug record of a request holds the
    dump of a request without the Authorization header, which is not the
    dump of the request handed to the wrapped transport. *)
Lemma dump_is_not_wire_request :
  ~ dump_is_wire_request (Fixture.platform "")
      (events
         (RoundTrip (Fixture.platform "")
            (mkTransport (Fixture.config "tok" true (Some (Fixture.answering 200 "{}")))
               (slog_New (userHandler "test")))
            Fixture.request0)
         Fixture.world0).
Proof.
  intros H.
  rewrite RoundTrip_events_run in H by discriminate.
  unfold RoundTrip_events, request_events, response_events, dump_events in H.
  cbn in H.
  specialize (H _ _ _ _ (list_elem_of_here _ _)
                (list_elem_of_further _ _ _ (list_elem_of_here _ _))).
  vm_compute in H. discriminate H.
Qed.

(** C2: on a client built by [newClient] with debug on, a round trip hands
    two debug records to the logger, and neither carries an attribute
    correlationID: [logRequest] and [logResponse] derive a logger with the
    identifier and then log the dump through the transport's own logger. *)
Theorem debug_records_lack_correlationID :
  (fun r => (rec_level r, rec_msg r, has_attr "correlationID" r))
  <$> log_records
        (events
           (RoundTrip (Fixture.platform "")
              (httpClient (newClient (Fixture.platform "")
                             (Fixture.config "tok" true (Some (Fixture.answering 200 "{}")))))
              Fixture.request0)
           Fixture.world0)
  = [(LevelDebug, "outbound request", false); (LevelDebug, "received response", false)].
Proof. vm_compute. reflexivity. Qed.

(** The same on every input: the debug records of a round trip go through
    the transport's logger as it is. *)
Lemma RoundTrip_debug_records_logger (P : Platform) {errDecoder : JSONDecoder ErrorResponse}
    (t : mtsTransport) (req : Request) (id : string) :
  Forall (fun r => rec_level r = LevelDebug -> rec_logger r = logr t)
    (log_records (RoundTrip_events P t req id)).
Proof.
  unfold RoundTrip_events, log_records. rewrite !omap_app. rewrite !Forall_app.
  split; [|split].
  - destruct (Debug (conf t)); [apply dump_events_debug_logger | constructor].
  - cbn. constructor.
  - destruct (getWrappedTransport P t (outbound P t req)) as [resp|err]; [|constructor].
    rewrite omap_app, Forall_app. split.
    + destruct (Debug (conf t)); [|constructor].
      unfold response_events. rewrite omap_app, Forall_app. split.
      * destruct (is_NoBody resp); constructor.
      * apply dump_events_debug_logger.
    + destruct (in_2xx resp); cbn; constructor.
Qed.
(** ** Building requests *)

Lemma parseTag_plain_examples :
  parseTag "name" = ("name", [])
  /\ parseTag "department_id,omitempty" = ("department_id", ["omitempty"])
  /\ parseTag "" = ("", []).
Proof. repeat split. Qed.

Lemma bool_decide_empty_size (m : gmap string string) :
  bool_decide (m = ∅) = bool_decide (size m = 0%nat).
Proof. apply bool_decide_ext. symmetry. apply map_size_empty_iff. Qed.

(** The walk over the fields, one field at a time. *)
Lemma members_under_cons (tagKey : string) (f : Field) (fs : list Field) :
  members_under tagKey (f :: fs)
  = from_option (fun name => [(name, f_value f)]) [] (field_key tagKey f)
    ++ members_under tagKey fs.
Proof. unfold members_under. cbn. destruct (field_key tagKey f); reflexivity. Qed.

Lemma json_members_under (fs : list Field) : json_members fs = members_under "json" fs.
Proof. reflexivity. Qed.

(** A field whose tag has a name and the option omitempty. *)
Lemma field_key_omitempty (zero : bool) (key : string) (v : Value) (k : option string) :
  k = (if zero then None else Some key) ->
  from_option (fun name => [(name, v)]) [] k = unless zero key v.
Proof. intros ->. destruct zero; reflexivity. Qed.

Ltac segments :=
  repeat (apply (f_equal2 (@app (string * Value))));
  try reflexivity;
  try (apply field_key_omitempty; reflexivity).

Lemma DepartmentCreateRequest_members (r : DepartmentCreateRequest) :
  members_under "url" (DepartmentCreateRequest_fields r) = DepartmentCreateRequest_expected r.
Proof. reflexivity. Qed.

Lemma EmployeeCreateRequest_members (r : EmployeeCreateRequest) :
  members_under "url" (EmployeeCreateRequest_fields r) = EmployeeCreateRequest_expected r.
Proof.
  unfold EmployeeCreateRequest_fields, EmployeeCreateRequest_expected.
  rewrite bool_decide_empty_size, !members_under_cons. cbn [members_under omap].
  rewrite app_nil_r. segments.
Qed.

Lemma EmployeeUpdateRequest_members (r : EmployeeUpdateRequest) :
  members_under "json" (EmployeeUpdateRequest_fields r) = EmployeeUpdateRequest_expected r.
Proof.
  unfold EmployeeUpdateRequest_fields, EmployeeUpdateRequest_expected.
  rewrite bool_decide_empty_size, !members_under_cons. cbn [members_under omap].
  rewrite app_nil_r.
  destruct r as [name did dname ceid title rate pin cf convert]; cbn [eur_Name
    eur_DepartmentID eur_DepartmentName eur_CustomEmployeeID eur_Title eur_HourlyRate
    eur_PIN eur_CustomFields eur_ConvertPrimaryDepartment].
  segments.
  - destruct did; reflexivity.
  - destruct dname; reflexivity.
  - destruct ceid; reflexivity.
  - destruct title; reflexivity.
  - destruct rate; reflexivity.
  - destruct pin; reflexivity.
  - destruct convert; reflexivity.
Qed.

(** The keys of the members are among the names of the tags, which do not
    repeat. *)
Lemma unless_keys_sublist (zero : bool) (key : string) (v : Value) :
  sublist (fst <$> unless zero key v) [key].
Proof. destruct zero; cbn; [apply sublist_nil_l | reflexivity]. Qed.

Lemma EmployeeCreateRequest_expected_NoDup (r : EmployeeCreateRequest) :
  NoDup (fst <$> EmployeeCreateRequest_expected r).
Proof.
  apply (sublist_NoDup _
           ["name"; "department_id"; "department_name"; "custom_employee_id"; "title";
            "hourly_rate"; "pin"; "custom_fields"]).
  - apply (bool_decide_unpack _). vm_compute. reflexivity.
  - unfold EmployeeCreateRequest_expected. rewrite !fmap_app.
    change ["name"; "department_id"; "department_name"; "custom_employee_id"; "title";
            "hourly_rate"; "pin"; "custom_fields"]
      with (["name"] ++ ["department_id"] ++ ["department_name"] ++ ["custom_employee_id"]
            ++ ["title"] ++ ["hourly_rate"] ++ ["pin"] ++ ["custom_fields"]).
    repeat (apply sublist_app; [first [reflexivity | apply unless_keys_sublist]|]).
    apply unless_keys_sublist.
Qed.

Section Requests.
Context (P : Platform) {errDecoder : JSONDecoder ErrorResponse}.

(** The form encoder adds the text of each selected member under its
    name. *)
Lemma reflectValue_members (fs : list Field) (values : gmap string (list string)) :
  reflectValue P fs values
  = foldl (fun values kv => Values_Add (fst kv) (valueString P (snd kv)) values) values
      (members_under "url" fs).
Proof.
  unfold reflectValue, members_under. revert values.
  induction fs as [|f fs IH]; intros values; [reflexivity|].
  cbn. destruct (field_key "url" f); cbn; apply IH.
Qed.

(** Under names that do not repeat every member is alone under its name. *)
Lemma fold_Values_Add (text : Value -> string) (ms : list (string * Value))
    (values : gmap string (list string)) :
  NoDup (fst <$> ms) ->
  (forall k, k ∈ fst <$> ms -> values !! k = None) ->
  foldl (fun values kv => Values_Add (fst kv) (text (snd kv)) values) values ms
  = list_to_map ((fun kv => (fst kv, [text (snd kv)])) <$> ms) ∪ values.
Proof.
  revert values. induction ms as [|[k v] ms IH]; intros values Hnd Hfresh.
  - cbn. rewrite (left_id ∅ (∪)). reflexivity.
  - cbn in Hnd. apply NoDup_cons in Hnd as [Hk Hnd].
    cbn [foldl fst snd]. unfold Values_Add at 2.
    rewrite (Hfresh k) by (cbn; apply elem_of_cons; left; reflexivity). cbn [default app].
    rewrite IH.
    + cbn [fmap list_fmap list_to_map foldr fst snd uncurry].
      rewrite <- insert_union_l. symmetry. rewrite <- insert_union_r; [reflexivity|].
      apply not_elem_of_list_to_map_1. rewrite <- list_fmap_compose.
      exact Hk.
    + exact Hnd.
    + intros k' Hk'. rewrite lookup_insert_ne.
      * apply Hfresh. cbn. apply elem_of_cons. right. exact Hk'.
      * intros ->. contradiction.
Qed.

Lemma fmap_unless {B} (f : string * Value -> B) (zero : bool) (key : string) (v : Value) :
  f <$> unless zero key v = if zero then [] else [f (key, v)].
Proof. destruct zero; reflexivity. Qed.

Lemma query_Values_DepartmentCreateRequest (r : DepartmentCreateRequest) :
  query_Values P (body_DepartmentCreateRequest (Some r))
  = inl (form_values P (DepartmentCreateRequest_expected r)).
Proof. reflexivity. Qed.

Lemma query_Values_EmployeeCreateRequest (r : EmployeeCreateRequest) :
  query_Values P (body_EmployeeCreateRequest (Some r))
  = inl (form_values P (EmployeeCreateRequest_expected r)).
Proof.
  unfold query_Values. cbn [Body_fields fmap option_fmap option_map]. f_equal.
  rewrite reflectValue_members, EmployeeCreateRequest_members.
  rewrite fold_Values_Add.
  - rewrite (right_id ∅ (∪)). unfold form_values. f_equal.
    unfold EmployeeCreateRequest_expected. rewrite !fmap_app, !fmap_unless. reflexivity.
  - apply EmployeeCreateRequest_expected_NoDup.
  - intros k _. apply lookup_empty.
Qed.

Lemma json_doc_EmployeeUpdateRequest (r : EmployeeUpdateRequest) :
  json_doc (body_EmployeeUpdateRequest (Some r))
  = json_object (EmployeeUpdateRequest_expected r).
Proof.
  unfold json_doc. cbn [Body_fields fmap option_fmap option_map].
  rewrite json_members_under, EmployeeUpdateRequest_members. reflexivity.
Qed.

(** A request built with a body: the method, the URL and the context are
    the call's, the header holds the content type. *)
Lemma newHTTPRequest_form (ctx : Context) (method url : string) (b : Body)
    (values : gmap string (list string)) (req : Request) :
  is_formRequest b = true ->
  query_Values P b = inl values ->
  newHTTPRequest P ctx method url (Some b) = inl req ->
  req_Header req !! "Content-Type" = Some ["application/x-www-form-urlencoded"]
  /\ req_Body req = Some (url_Values_Encode P values).
Proof.
  intros Hform Hvalues. unfold newHTTPRequest, http_NewRequest.
  rewrite Hform, Hvalues.
  destruct (http_NewRequest_err P _ url); [discriminate|].
  intros [= <-]. split; reflexivity.
Qed.

Lemma newHTTPRequest_json (ctx : Context) (method url : string) (b : Body)
    (req : Request) :
  is_formRequest b = false ->
  newHTTPRequest P ctx method url (Some b) = inl req ->
  req_Header req !! "Content-Type" = Some ["application/json"]
  /\ exists buf : string, json_Encode P (json_doc b) = inl buf /\ req_Body req = Some buf.
Proof.
  intros Hform. unfold newHTTPRequest, http_NewRequest, json_Encoder_Encode.
  rewrite Hform.
  destruct (json_Encode P (json_doc b)) as [buf|err]; [|discriminate].
  destruct (http_NewRequest_err P _ url); [discriminate|].
  intros [= <-]. split; [reflexivity|]. exists buf. split; reflexivity.
Qed.

(** C5, as the code has it: a request built without a body has no payload,
    and its header holds the key Content-Type with the empty string as its
    one value (which [Get] reads as the empty string) and no other key.
    The entry points for GET and DELETE build their requests this way. *)
Theorem no_body_empty_Content_Type (ctx : Context) (method url : string) (req : Request) :
  newHTTPRequest P ctx method url None = inl req ->
  req_Body req = None
  /\ req_Header req !! "Content-Type" = Some [""]
  /\ (forall k, k <> "Content-Type" -> req_Header req !! k = None)
  /\ Header_Get "Content-Type" (req_Header req) = ""
  /\ (forall T (dec : JSONDecoder T) (c : client) (path : string),
        httpGet (T := T) P ctx c path = httpDo P ctx c MethodGet path None
        /\ httpDelete (T := T) P ctx c path = httpDo P ctx c MethodDelete path None).
Proof.
  unfold newHTTPRequest, http_NewRequest.
  destruct (http_NewRequest_err P _ url); [discriminate|].
  intros [= <-]. cbn. repeat split.
  intros k Hk. unfold Header_Add. rewrite lookup_insert_ne by congruence.
  apply lookup_empty.
Qed.

(** C7: a request built with a body of a form kind (a department or an
    employee to create) has the content type
    application/x-www-form-urlencoded, and its payload is the encoding of
    the form values of the struct: one value under the name of each tag,
    but for the fields marked omitempty that hold the zero value of their
    type, whose names are absent (a nil pointer gives no values).  With a
    body of the other kind (an employee to update) the content type is
    application/json, and the payload is the JSON text of the struct's
    members, each under the name of its tag, but for the fields marked
    omitempty that are nil or empty (a nil pointer to the struct is
    null).  The expected members are written out field by field from the
    tags of the source. *)
Theorem body_encoding_by_kind (ctx : Context) (method url : string) (b : Body)
    (req : Request) :
  newHTTPRequest P ctx method url (Some b) = inl req ->
  match b with
  | body_DepartmentCreateRequest p =>
      let members := from_option DepartmentCreateRequest_expected [] p in
      is_formRequest b = true
      /\ req_Header req !! "Content-Type" = Some ["application/x-www-form-urlencoded"]
      /\ query_Values P b = inl (form_values P members)
      /\ req_Body req = Some (url_Values_Encode P (form_values P members))
  | body_EmployeeCreateRequest p =>
      let members := from_option EmployeeCreateRequest_expected [] p in
      is_formRequest b = true
      /\ req_Header req !! "Content-Type" = Some ["application/x-www-form-urlencoded"]
      /\ query_Values P b = inl (form_values P members)
      /\ req_Body req = Some (url_Values_Encode P (form_values P members))
  | body_EmployeeUpdateRequest p =>
      let doc := from_option (fun r => json_object (EmployeeUpdateRequest_expected r))
                   json_null p in
      is_formRequest b = false
      /\ req_Header req !! "Content-Type" = Some ["application/json"]
      /\ json_doc b = doc
      /\ exists buf : string, json_Encode P doc = inl buf /\ req_Body req = Some buf
  end.
Proof.
  intros Hreq. destruct b as [p|p|p]; cbv zeta.
  - assert (Hvalues : query_Values P (body_DepartmentCreateRequest p)
                      = inl (form_values P (from_option DepartmentCreateRequest_expected [] p))).
    { destruct p as [r|]; [apply query_Values_DepartmentCreateRequest | reflexivity]. }
    destruct (newHTTPRequest_form ctx method url (body_DepartmentCreateRequest p) _ req
                (eq_refl true) Hvalues Hreq) as [Hct Hbody].
    repeat split; assumption.
  - assert (Hvalues : query_Values P (body_EmployeeCreateRequest p)
                      = inl (form_values P (from_option EmployeeCreateRequest_expected [] p))).
    { destruct p as [r|]; [apply query_Values_EmployeeCreateRequest | reflexivity]. }
    destruct (newHTTPRequest_form ctx method url (body_EmployeeCreateRequest p) _ req
                (eq_refl true) Hvalues Hreq) as [Hct Hbody].
    repeat split; assumption.
  - assert (Hdoc : json_doc (body_EmployeeUpdateRequest p)
                   = from_option (fun r => json_object (EmployeeUpdateRequest_expected r))
                       json_null p).
    { destruct p as [r|]; [apply json_doc_EmployeeUpdateRequest | reflexivity]. }
    destruct (newHTTPRequest_json ctx method url (body_EmployeeUpdateRequest p) req (eq_refl false) Hreq)
      as [Hct Hbody].
    rewrite Hdoc in Hbody. repeat split; assumption.
Qed.

End Requests.

(** ** Requests on concrete inputs *)

(** C5 at the request of a department listing. *)
Lemma no_body_empty_Content_Type_witness :
  newHTTPRequest (Fixture.platform "") ctx_Background MethodGet
    "https://api.mytimestation.com/v1.2/departments" None
  = inl (mkRequest ctx_Background "GET" "https://api.mytimestation.com/v1.2/departments"
           {["Content-Type" := [""]]} None)
  /\ Header_Get "Content-Type" {["Content-Type" := [""]]} = "".
Proof.
  split; [reflexivity|].
  exact (proj1 (proj2 (proj2 (proj2
    (no_body_empty_Content_Type (Fixture.platform "") ctx_Background MethodGet
       "https://api.mytimestation.com/v1.2/departments"
       (mkRequest ctx_Background "GET" "https://api.mytimestation.com/v1.2/departments"
          {["Content-Type" := [""]]} None)
       eq_refl))))).
Defined.

(** C5, as the spec has it, fails: the request of a department listing is
    built without a body, and its header has the key Content-Type. *)
Lemma no_body_still_has_Content_Type :
  ~ (forall req : Request,
       newHTTPRequest (Fixture.platform "") ctx_Background MethodGet
         "https://api.mytimestation.com/v1.2/departments" None = inl req ->
       req_Header req !! "Content-Type" = None /\ req_Body req = None).
Proof.
  intros H. destruct (H _ eq_refl) as [Hkey _]. vm_compute in Hkey. discriminate Hkey.
Qed.

(** C7 at the creation of an employee with empty optional fields, and at
    the update of an employee's name: the form has the three keys of the
    fields that are set, the JSON text the one member that is not nil. *)
Lemma body_encoding_by_kind_witness :
  (newHTTPRequest (Fixture.platform "") ctx_Background MethodPost
     "https://api.mytimestation.com/v1.2/employees"
     (Some (body_EmployeeCreateRequest (Some Fixture.painter_Bob)))
   = inl Fixture.create_employee
   /\ req_Header Fixture.create_employee !! "Content-Type"
      = Some ["application/x-www-form-urlencoded"]
   /\ query_Values (Fixture.platform "") (body_EmployeeCreateRequest (Some Fixture.painter_Bob))
      = inl {[ "name" := ["Bob"]; "department_id" := ["dep_1"]; "title" := ["Painter"] ]}
   /\ req_Body Fixture.create_employee
      = Some (Fixture.encode_values
                {[ "name" := ["Bob"]; "department_id" := ["dep_1"]; "title" := ["Painter"] ]}))
  /\ (newHTTPRequest (Fixture.platform "") ctx_Background MethodPut
        "https://api.mytimestation.com/v1.2/employees/emp_1"
        (Some (body_EmployeeUpdateRequest (Some Fixture.rename_to_Bob_Ross)))
      = inl Fixture.update_employee
      /\ req_Header Fixture.update_employee !! "Content-Type" = Some ["application/json"]
      /\ json_doc (body_EmployeeUpdateRequest (Some Fixture.rename_to_Bob_Ross))
         = json_object [("name", val_ptr (Some (val_string "Bob Ross")))]
      /\ req_Body Fixture.update_employee
         = Some ("{" +:+ Fixture.dq +:+ "name" +:+ Fixture.dq +:+ ":" +:+ Fixture.dq
                 +:+ "Bob Ross" +:+ Fixture.dq +:+ "}" +:+ Fixture.lf)).
Proof.
  split.
  - split; [vm_compute; reflexivity|].
    destruct (body_encoding_by_kind (Fixture.platform "") ctx_Background MethodPost
                "https://api.mytimestation.com/v1.2/employees"
                (body_EmployeeCreateRequest (Some Fixture.painter_Bob))
                Fixture.create_employee)
      as (_ & Hct & Hvalues & Hbody).
    + vm_compute. reflexivity.
    + split; [exact Hct|]. split; [|exact Hbody].
      rewrite Hvalues. vm_compute. reflexivity.
  - split; [vm_compute; reflexivity|].
    destruct (body_encoding_by_kind (Fixture.platform "") ctx_Background MethodPut
                "https://api.mytimestation.com/v1.2/employees/emp_1"
                (body_EmployeeUpdateRequest (Some Fixture.rename_to_Bob_Ross))
                Fixture.update_employee)
      as (_ & Hct & Hdoc & buf & Hbuf & Hbody).
    + vm_compute. reflexivity.
    + split; [exact Hct|]. split; [exact Hdoc|].
      rewrite Hbody. f_equal. vm_compute in Hbuf. injection Hbuf as <-. reflexivity.
Defined.

Example create_department_request :
  newHTTPRequest (Fixture.platform "") ctx_Background MethodPost
    "https://api.mytimestation.com/v1.2/departments"
    (Some (body_DepartmentCreateRequest (Some (mkDepartmentCreateRequest "Engineering"))))
  = inl Fixture.create_department.
Proof. vm_compute. reflexivity. Qed.

Example update_employee_request :
  newHTTPRequest (Fixture.platform "") ctx_Background MethodPut
    "https://api.mytimestation.com/v1.2/employees/emp_1"
    (Some (body_EmployeeUpdateRequest (Some Fixture.rename_to_Bob_Ross)))
  = inl Fixture.update_employee.
Proof. vm_compute. reflexivity. Qed.

(** ** Scenarios *)

(** Creating the department Engineering against a service that echoes it. *)
Example create_department_scenario :
  fst (Departments_Create (Fixture.platform "")
         (newClient (Fixture.platform "")
            (Fixture.config "tok" false (Some (Fixture.answering 200 Fixture.department_dep_1))))
         ctx_Background (Some (mkDepartmentCreateRequest "Engineering")) Fixture.world0)
  = (Some (mkDepartment "dep_1" "Engineering"), None).
Proof. vm_compute. reflexivity. Qed.

(** A service that answers 404 with no body makes a call fail with the
    service error 404 Not Found, inside the client's [url.Error]. *)
Example not_found_scenario :
  fst (Employees_Get (Fixture.platform "")
         (newClient (Fixture.platform "")
            (Fixture.config "tok" false (Some (Fixture.answering 404 ""))))
         ctx_Background "emp_1" Fixture.world0)
  = (None,
     Some (errURL "Get" "https://api.mytimestation.com/v1.2/employees/emp_1"
             (errService (mkError 404 "Not Found")))).
Proof. vm_compute. reflexivity. Qed.

(** Without a token nothing reaches the wrapped transport. *)
Example missing_token_scenario :
  Employees_List (Fixture.platform "")
    (newClient (Fixture.platform "") (Fixture.config "" true (Some (Fixture.answering 200 "{}"))))
    ctx_Background Fixture.world0
  = ((None, Some (errURL "Get" "https://api.mytimestation.com/v1.2/employees" ErrMissingToken)),
     Fixture.world0).
Proof. vm_compute. reflexivity. Qed.

(** ** The aggregate error *)

Lemma ErrorList_Error_nil (P : Platform) : ErrorList_Error P [] = "error:".
Proof. reflexivity. Qed.

(** Whatever follows the first element does not enter the text. *)
Lemma ErrorList_Error_cons (P : Platform) (e : error) (rest : list error) :
  ErrorList_Error P (e :: rest) = " " +:+ error_string P e +:+ " ;".
Proof. reflexivity. Qed.

Section SweeperRuns.
Context (P : Platform) {errDecoder : JSONDecoder ErrorResponse}
  {decDepartment : JSONDecoder DepartmentResponse}
  {decDepartments : JSONDecoder DepartmentListResponse}
  {decEmployee : JSONDecoder EmployeeResponse}
  {decEmployees : JSONDecoder EmployeeListResponse}.

(** [Sweep] returns nil or a list with an element, never an empty list. *)
Lemma Sweep_nil_or_nonempty (s : Sweeper) (ctx : Context) (w : World) :
  fst (Sweep P s ctx w) = None
  \/ exists e l, fst (Sweep P s ctx w) = Some (ErrorList (e :: l)).
Proof.
  unfold Sweep, mbind, M_bind.
  destruct (sweep_loop _ _ _ _ _ (employeeIDs s) [] w) as [l1 w1].
  destruct (sweep_loop _ _ _ _ _ (departmentIDs s) l1 w1) as [l2 w2].
  destruct l2 as [|e l]; cbn; [left; reflexivity | right; eauto].
Qed.

End SweeperRuns.

(** C9: two deletions fail with 404 and [Sweep] returns the list of the two
    errors; the text of that list is the text of its first element between a
    space and a semicolon, and the text of the second is no part of it. *)
Theorem ErrorList_Error_renders_first_only :
  let P := Fixture.platform "" in
  let c := newClient P (Fixture.config "tok" false (Some (Fixture.answering 404 ""))) in
  let s := mkSweeper c (slog_New (userHandler "test")) ["emp_1"; "emp_2"] [] in
  let e1 := errURL "Delete" "https://api.mytimestation.com/v1.2/employees/emp_1"
              (errService (mkError 404 "Not Found")) in
  let e2 := errURL "Delete" "https://api.mytimestation.com/v1.2/employees/emp_2"
              (errService (mkError 404 "Not Found")) in
  fst (Sweep P s ctx_Background Fixture.world0) = Some (ErrorList [e1; e2])
  /\ error_string P (ErrorList [e1; e2]) = " " +:+ error_string P e1 +:+ " ;"
  /\ strings_Contains (error_string P (ErrorList [e1; e2])) (error_string P e2) = false.
Proof. vm_compute. repeat split. Qed.

(** * Further properties of the package *)

(** ** Configuration getters *)

(** The resolved token is the configured one whenever there is one, whatever
    the environment holds, and it is empty only when both are. *)
Theorem GetAuthToken_explicit_first (P : Platform) (c : Config) :
  (AuthToken c <> "" -> GetAuthToken P c = AuthToken c)
  /\ (GetAuthToken P c = "" <-> AuthToken c = "" /\ os_Getenv P authTokenEnvVar = "").
Proof.
  unfold GetAuthToken. destruct (String.eqb (AuthToken c) "") eqn:E.
  - apply String.eqb_eq in E. split; [congruence|]. rewrite E. tauto.
  - apply String.eqb_neq in E. split; [reflexivity|]. split; [congruence | tauto].
Qed.

(** Protocol, host and API version are never empty: a configured value is
    returned as it is, and an empty one gives way to the default. *)
Theorem getters_never_empty (c : Config) :
  GetProtocol c <> "" /\ GetHost c <> "" /\ GetAPIVersion c <> ""
  /\ (Protocol c <> "" -> GetProtocol c = Protocol c)
  /\ (Host c <> "" -> GetHost c = Host c)
  /\ (APIVersion c <> "" -> GetAPIVersion c = APIVersion c)
  /\ (Protocol c = "" -> GetProtocol c = defaultProtocol)
  /\ (Host c = "" -> GetHost c = defaultHost)
  /\ (APIVersion c = "" -> GetAPIVersion c = defaultAPIVersion).
Proof.
  unfold GetProtocol, GetHost, GetAPIVersion.
  destruct (String.eqb (Protocol c) "") eqn:Ep, (String.eqb (Host c) "") eqn:Eh,
    (String.eqb (APIVersion c) "") eqn:Ev;
    rewrite ?String.eqb_eq, ?String.eqb_neq in *;
    repeat split; try discriminate; try assumption; try reflexivity; congruence.
Qed.

(** ** Whole runs of the transport and of the dispatcher *)

Lemma events_run {A} (m : M A) (w : World) (a : A) (evs : list Event) (n : nat) :
  m w = (a, mkWorld (trace w ++ evs) n) ->
  fst (m w) = a /\ events m w = evs /\ drawn (snd (m w)) = n.
Proof.
  intros H. split; [rewrite H; reflexivity|]. split; [|rewrite H; reflexivity].
  eapply events_extend. exact H.
Qed.

Lemma world_eta (w : World) : mkWorld (trace w) (drawn w) = w.
Proof. destruct w; reflexivity. Qed.

Section WholeRuns.
Context (P : Platform) {errDecoder : JSONDecoder ErrorResponse}.

Lemma has_token_true (t : mtsTransport) :
  has_token P t = true <-> GetAuthToken P (conf t) <> "".
Proof. unfold has_token. rewrite negb_true_iff. apply String.eqb_neq. Qed.

Lemma has_token_false (t : mtsTransport) :
  has_token P t = false <-> GetAuthToken P (conf t) = "".
Proof. unfold has_token. rewrite negb_false_iff. apply String.eqb_eq. Qed.

Lemma RoundTrip_whole (t : mtsTransport) (req : Request) (w : World) :
  RoundTrip P t req w
  = (round_result P t req,
     mkWorld (trace w ++ round_events P t req (uuid_New P (drawn w)))
       (drawn w + round_draws P t)).
Proof.
  unfold round_result, round_events, round_draws.
  destruct (has_token P t) eqn:E.
  - apply has_token_true in E. rewrite (RoundTrip_run P t req w E).
    replace (drawn w + 1)%nat with (S (drawn w)) by lia. reflexivity.
  - apply has_token_false in E. rewrite (RoundTrip_missing P t req w E).
    rewrite app_nil_r, Nat.add_0_r, world_eta. reflexivity.
Qed.

Lemma httpDo_whole {T} {dec : JSONDecoder T} (c : client) (ctx : Context)
    (method path : string) (body : option Body) (w : World) :
  httpDo (T := T) P ctx c method path body w
  = (do_result P c ctx method path body,
     mkWorld (trace w ++ do_events P c ctx method path body (uuid_New P (drawn w)))
       (drawn w + do_draws P c ctx method path body)).
Proof.
  unfold httpDo, do_result, do_events, do_draws.
  destruct (newHTTPRequest P ctx method (GetBaseURL (c_conf c) +:+ path) body)
    as [req|err].
  - unfold Client_Do. run_M. rewrite RoundTrip_whole.
    destruct (round_result P (httpClient c) req) as [resp|err]; cbn.
    + rewrite mapResponseBody_run. unfold extend. cbn. rewrite <- app_assoc. reflexivity.
    + rewrite app_nil_r. reflexivity.
  - run_M. rewrite app_nil_r, Nat.add_0_r, world_eta. reflexivity.
Qed.

End WholeRuns.

(** ** The transport: what reaches the wire and the log *)

Section TransportFacts.
Context (P : Platform) {errDecoder : JSONDecoder ErrorResponse}.

Lemma roundtrips_app (a b : list Event) : roundtrips (a ++ b) = roundtrips a ++ roundtrips b.
Proof. apply omap_app. Qed.


Lemma log_records_app (a b : list Event) :
  log_records (a ++ b) = log_records a ++ log_records b.
Proof. apply omap_app. Qed.

Lemma RoundTrip_events_roundtrips (t : mtsTransport) (req : Request) (id : string) :
  roundtrips (RoundTrip_events P t req id) = [outbound P t req].
Proof.
  unfold RoundTrip_events. rewrite !roundtrips_app.
  assert (Hreq : roundtrips (if Debug (conf t)
                             then request_events P t (prepared t req) id else []) = []).
  { destruct (Debug (conf t)); [apply roundtrips_dump_events | reflexivity]. }
  rewrite Hreq. cbn.
  destruct (getWrappedTransport P t (outbound P t req)) as [resp|err]; [|reflexivity].
  rewrite roundtrips_app.
  assert (Hresp : roundtrips (if Debug (conf t)
                              then response_events P t resp id else []) = []).
  { destruct (Debug (conf t)); [|reflexivity].
    unfold response_events. rewrite roundtrips_app, roundtrips_dump_events.
    destruct (is_NoBody resp); reflexivity. }
  rewrite Hresp. destruct (in_2xx resp); reflexivity.
Qed.



(** The dump and the credentials leave the context, the method and the URL
    of a request as they are. *)
Lemma outbound_line (t : mtsTransport) (req : Request) :
  req_ctx (outbound P t req) = req_ctx req
  /\ req_Method (outbound P t req) = req_Method req
  /\ req_URL (outbound P t req) = req_URL req.
Proof.
  unfold outbound, logged_request, DumpRequestOut.
  destruct (Debug (conf t)); [|repeat split].
  change (req_Body (prepared t req)) with (req_Body req).
  change (req_Body_closeErr (prepared t req)) with (req_Body_closeErr req).
  destruct (req_Body req), (req_Body_closeErr req),
    (httputil_DumpRequestOut P (prepared t req)) as [b [e'|]]; repeat split.
Qed.



(** With the debug flag off the transport hands nothing to any logger. *)
Theorem no_debug_no_log (t : mtsTransport) (req : Request) (w : World) :
  Debug (conf t) = false ->
  log_records (events (RoundTrip P t req) w) = [].
Proof.
  intros Hdebug.
  destruct (events_run _ w _ _ _ (RoundTrip_whole P t req w)) as (_ & -> & _).
  unfold round_events. destruct (has_token P t); [|reflexivity].
  unfold RoundTrip_events. rewrite Hdebug, !log_records_app. cbn.
  destruct (getWrappedTransport P t (outbound P t req)) as [resp|err]; [|reflexivity].
  cbn. destruct (in_2xx resp); reflexivity.
Qed.



End TransportFacts.

(** ** The dispatcher: requests, bodies and results *)

Section DispatcherFacts.
Context (P : Platform) {errDecoder : JSONDecoder ErrorResponse}.

Lemma newHTTPRequest_fields (ctx : Context) (method url : string) (body : option Body)
    (req : Request) :
  newHTTPRequest P ctx method url body = inl req ->
  req_ctx req = ctx
  /\ req_Method req = (if String.eqb method "" then MethodGet else method)
  /\ req_URL req = url
  /\ (body = None -> req_Body req = None).
Proof.
  unfold newHTTPRequest, http_NewRequest. intros H.
  destruct body as [b|].
  - destruct (is_formRequest b).
    + destruct (query_Values P b); [|discriminate].
      destruct (http_NewRequest_err P _ url); [discriminate|].
      injection H as <-. repeat split. discriminate.
    + destruct (json_Encoder_Encode P b); [|discriminate].
      destruct (http_NewRequest_err P _ url); [discriminate|].
      injection H as <-. repeat split. discriminate.
  - destruct (http_NewRequest_err P _ url); [discriminate|].
    injection H as <-. repeat split.
Qed.

Lemma round_events_roundtrips (t : mtsTransport) (req : Request) (id : string) :
  roundtrips (round_events P t req id) = if has_token P t then [outbound P t req] else [].
Proof.
  unfold round_events. destruct (has_token P t); [|reflexivity].
  apply RoundTrip_events_roundtrips.
Qed.

Lemma close_events_roundtrips (c : client) (resp : Response) :
  roundtrips (close_events c resp) = [].
Proof. unfold close_events. destruct (body_closeErr resp); reflexivity. Qed.


Lemma do_events_roundtrips (c : client) (ctx : Context) (method path : string)
    (body : option Body) (id : string) :
  roundtrips (do_events P c ctx method path body id)
  = match newHTTPRequest P ctx method (GetBaseURL (c_conf c) +:+ path) body with
    | inl req => if has_token P (httpClient c) then [outbound P (httpClient c) req] else []
    | inr _ => []
    end.
Proof.
  unfold do_events.
  destruct (newHTTPRequest P ctx method (GetBaseURL (c_conf c) +:+ path) body)
    as [req|err]; [|reflexivity].
  rewrite roundtrips_app, round_events_roundtrips.
  destruct (round_result P (httpClient c) req);
    rewrite ?close_events_roundtrips, app_nil_r; reflexivity.
Qed.

(** When the request cannot be built the dispatcher returns the error and
    leaves the world as it was: no identifier, no log, no call. *)
Theorem build_failure_sends_nothing {T} {dec : JSONDecoder T} (c : client)
    (ctx : Context) (method path : string) (body : option Body) (w : World) (err : error) :
  newHTTPRequest P ctx method (GetBaseURL (c_conf c) +:+ path) body = inr err ->
  httpDo (T := T) P ctx c method path body w = ((None, Some err), w).
Proof. intros H. unfold httpDo. rewrite H. reflexivity. Qed.

(** The ways a request can fail to be built: the constructor of the
    request refuses the method or the URL, or a body that is no form fails to
    encode as JSON.  A form body never fails to encode, and a missing body
    fails only in the constructor. *)
Theorem newHTTPRequest_failures (ctx : Context) (method url : string)
    (body : option Body) (err : error) :
  newHTTPRequest P ctx method url body = inr err ->
  (exists e, http_NewRequest_err P (if String.eqb method "" then MethodGet else method) url
             = Some e
             /\ err = errWrap "could not build request" e)
  \/ (exists b e, body = Some b /\ is_formRequest b = false
                  /\ json_Encode P (json_doc b) = inr e
                  /\ err = errWrap "could not marshal json" e).
Proof.
  unfold newHTTPRequest, http_NewRequest, json_Encoder_Encode, query_Values. intros H.
  destruct body as [b|].
  - destruct (is_formRequest b) eqn:Hform.
    + left. destruct (Body_fields b); cbn in H;
        (destruct (http_NewRequest_err P _ url) as [e|]; [|discriminate]);
        injection H as <-; eauto.
    + destruct (json_Encode P (json_doc b)) as [buf|e] eqn:Hjson.
      * left. destruct (http_NewRequest_err P _ url) as [e|]; [|discriminate].
        injection H as <-. eauto.
      * right. injection H as <-. exists b, e. auto.
  - left. destruct (http_NewRequest_err P _ url) as [e|]; [|discriminate].
    injection H as <-. eauto.
Qed.

(** Each entry point sends its own verb to the base URL followed by the
    path, under the caller's context; GET and DELETE carry no payload. *)
Theorem entry_points_send_their_verb {T} {dec : JSONDecoder T} (c : client)
    (ctx : Context) (path : string) (body : option Body) (w : World) :
  let sent (verb : string) (no_payload : bool) (r : Request) : Prop :=
    exists req, r = outbound P (httpClient c) req
                /\ req_Method req = verb
                /\ req_URL req = GetBaseURL (c_conf c) +:+ path
                /\ req_ctx req = ctx
                /\ (no_payload = true -> req_Body req = None) in
  Forall (sent "GET" true) (roundtrips (events (httpGet (T := T) P ctx c path) w))
  /\ Forall (sent "DELETE" true) (roundtrips (events (httpDelete (T := T) P ctx c path) w))
  /\ Forall (sent "POST" false) (roundtrips (events (httpPost (T := T) P ctx c path body) w))
  /\ Forall (sent "PUT" false) (roundtrips (events (httpPut (T := T) P ctx c path body) w)).
Proof.
  intros sent.
  assert (H : forall method body' no_payload,
             method <> "" -> (no_payload = true -> body' = None) ->
             Forall (sent method no_payload)
               (roundtrips (events (httpDo (T := T) P ctx c method path body') w))).
  { intros method body' no_payload Hm Hb.
    destruct (events_run _ w _ _ _ (httpDo_whole (T := T) P c ctx method path body' w))
      as (_ & -> & _).
    rewrite do_events_roundtrips.
    destruct (newHTTPRequest P ctx method (GetBaseURL (c_conf c) +:+ path) body')
      as [req|err] eqn:Hreq; [|constructor].
    destruct (has_token P (httpClient c)); [|constructor].
    constructor; [|constructor]. exists req.
    destruct (newHTTPRequest_fields _ _ _ _ _ Hreq) as (Hctx & Hmethod & Hurl & Hbody).
    apply eqb_empty_false in Hm. rewrite Hm in Hmethod. auto 10. }
  repeat split; apply H; try discriminate; auto.
Qed.


(** With debug off, a failing close of the body does not change what the
    dispatcher returns: the decoded value and the decoder's error come back,
    and the failure goes to the client's logger at level error as the last
    event. *)
Theorem close_failure_is_logged_not_returned {T} {dec : JSONDecoder T} (c : client)
    (ctx : Context) (method path : string) (body : option Body) (req : Request)
    (resp : Response) (w : World) (e : error) :
  Debug (conf (httpClient c)) = false ->
  GetAuthToken P (conf (httpClient c)) <> "" ->
  newHTTPRequest P ctx method (GetBaseURL (c_conf c) +:+ path) body = inl req ->
  getWrappedTransport P (httpClient c) (outbound P (httpClient c) req) = inl resp ->
  200 <= StatusCode resp <= 299 ->
  body_closeErr resp = Some e ->
  fst (httpDo (T := T) P ctx c method path body w)
  = (Some (fst (json_Decode (T := T) (resp_Body resp))),
     snd (json_Decode (T := T) (resp_Body resp)))
  /\ last (events (httpDo (T := T) P ctx c method path body) w)
     = Some (ev_log (mkLogRecord (c_logr c) (resp_Request_ctx resp) LevelError
                       "failed to close response body" [slog_Any "error" e])).
Proof.
  intros Hdebug Htok Hreq Hresp Hok Hclose.
  destruct (events_run _ w _ _ _ (httpDo_whole (T := T) P c ctx method path body w))
    as (-> & -> & _).
  unfold do_result, do_events, round_result, RoundTrip_result. rewrite Hreq.
  apply has_token_true in Htok. rewrite Htok, Hresp.
  apply in_2xx_true in Hok. rewrite Hok.
  rewrite (logged_response_clean (httpClient c) resp) by (left; exact Hdebug).
  split; [reflexivity|].
  unfold close_events. rewrite Hclose.
  rewrite last_app. reflexivity.
Qed.

End DispatcherFacts.

(** ** Resource clients and the sweeper *)

Lemma unwrap_snd {T R} (get : T -> R) (r : option T * option error) :
  snd (unwrap get r) = snd r.
Proof. destruct r as [x [e|]]; reflexivity. Qed.

Lemma omap_pointwise {A B} (f g : A -> option B) (l : list A) :
  (forall x, f x = g x) -> omap f l = omap g l.
Proof.
  intros H. induction l as [|x l IH]; [reflexivity|].
  cbn. rewrite H. destruct (g x); cbn; fold (omap f l); fold (omap g l); rewrite IH;
    reflexivity.
Qed.

Lemma collect_loop_filter {R} (name id : R -> string) (prefix : string) (rs : list R)
    (ids : list string) :
  collect_loop name id prefix rs ids
  = ids ++ (id <$> List.filter (fun r => strings_HasPrefix (name r) prefix) rs).
Proof.
  revert ids. induction rs as [|r rs IH]; intros ids; cbn.
  - rewrite app_nil_r. reflexivity.
  - rewrite IH. destruct (strings_HasPrefix (name r) prefix); cbn;
      rewrite <- ?app_assoc; reflexivity.
Qed.

Section ClientFacts.
Context (P : Platform) {errDecoder : JSONDecoder ErrorResponse}.

(** The shape all resource methods share, as a whole run. *)
Lemma call_whole {T R} {dec : JSONDecoder T} (get : T -> R) (c : client) (ctx : Context)
    (method path : string) (body : option Body) (w : World) :
  (r ← httpDo (T := T) P ctx c method path body; mret (unwrap get r)) w
  = (unwrap get (do_result P c ctx method path body),
     mkWorld (trace w ++ do_events P c ctx method path body (uuid_New P (drawn w)))
       (drawn w + do_draws P c ctx method path body)).
Proof. unfold mbind, M_bind. rewrite httpDo_whole. reflexivity. Qed.



End ClientFacts.

Section SweeperFacts.
Context (P : Platform) {errDecoder : JSONDecoder ErrorResponse}
  {decDepartment : JSONDecoder DepartmentResponse}
  {decDepartments : JSONDecoder DepartmentListResponse}
  {decEmployee : JSONDecoder EmployeeResponse}
  {decEmployees : JSONDecoder EmployeeListResponse}.


Lemma sweep_loop_whole {R} (delete : string -> M (option R * option error))
    (res : string -> option R * option error) (evs : string -> string -> list Event)
    (draws : string -> nat) (lg : Logger) (ctx : Context) (msg key : string) :
  (forall id w,
     delete id w = (res id, mkWorld (trace w ++ evs id (uuid_New P (drawn w)))
                              (drawn w + draws id))) ->
  forall (ids : list string) (errList : list error) (w : World),
    sweep_loop delete lg ctx msg key ids errList w
    = (errList ++ omap (fun id => snd (res id)) ids,
       mkWorld
         (trace w
          ++ loop_events P evs draws
               (fun id => [ev_log (mkLogRecord lg ctx LevelInfo msg [slog_String key id])])
               ids (drawn w))
         (drawn w + loop_draws draws ids)).
Proof.
  intros Hdelete ids. induction ids as [|id ids IH]; intros errList w.
  - cbn. rewrite !app_nil_r, Nat.add_0_r, world_eta. reflexivity.
  - cbn [sweep_loop loop_events loop_draws foldr omap]. unfold mbind, M_bind.
    rewrite Hdelete. run_M. rewrite IH. cbn [trace drawn].
    f_equal.
    + destruct (snd (res id)); cbn; rewrite <- ?app_assoc; reflexivity.
    + f_equal; [rewrite <- !app_assoc; reflexivity | unfold loop_draws; lia].
Qed.

Lemma deleteAll_loop_whole {R} (delete : string -> M (option R * option error))
    (res : string -> option R * option error) (evs : string -> string -> list Event)
    (draws : string -> nat) :
  (forall id w,
     delete id w = (res id, mkWorld (trace w ++ evs id (uuid_New P (drawn w)))
                              (drawn w + draws id))) ->
  forall (ids : list string) (errList : list error) (w : World),
    deleteAll_loop delete ids errList w
    = (errList ++ omap (fun id => snd (res id)) ids,
       mkWorld (trace w ++ loop_events P evs draws (fun _ => []) ids (drawn w))
         (drawn w + loop_draws draws ids)).
Proof.
  intros Hdelete ids. induction ids as [|id ids IH]; intros errList w.
  - cbn. rewrite !app_nil_r, Nat.add_0_r, world_eta. reflexivity.
  - cbn [deleteAll_loop loop_events loop_draws foldr omap]. unfold mbind, M_bind.
    rewrite Hdelete. run_M. rewrite IH. cbn [trace drawn].
    f_equal.
    + destruct (snd (res id)); cbn; rewrite <- ?app_assoc; reflexivity.
    + f_equal; [rewrite <- !app_assoc; reflexivity | unfold loop_draws; lia].
Qed.

(** The deletions as whole runs. *)
Lemma Employees_Delete_whole (c : client) (ctx : Context) (id : string) (w : World) :
  Employees_Delete P c ctx id w
  = (unwrap er_Employee (do_result P c ctx MethodDelete ("/employees/" +:+ id) None),
     mkWorld
       (trace w
        ++ do_events P c ctx MethodDelete ("/employees/" +:+ id) None (uuid_New P (drawn w)))
       (drawn w + do_draws P c ctx MethodDelete ("/employees/" +:+ id) None)).
Proof. apply (call_whole P er_Employee). Qed.

Lemma Departments_Delete_whole (c : client) (ctx : Context) (id : string) (w : World) :
  Departments_Delete P c ctx id w
  = (unwrap dr_Department (do_result P c ctx MethodDelete ("/departments/" +:+ id) None),
     mkWorld
       (trace w
        ++ do_events P c ctx MethodDelete ("/departments/" +:+ id) None
             (uuid_New P (drawn w)))
       (drawn w + do_draws P c ctx MethodDelete ("/departments/" +:+ id) None)).
Proof. apply (call_whole P dr_Department). Qed.

(** What a deletion returns does not depend on the world it runs in. *)
Lemma Employees_Delete_value (c : client) (ctx : Context) (id : string) (w w' : World) :
  fst (Employees_Delete P c ctx id w) = fst (Employees_Delete P c ctx id w').
Proof. rewrite !Employees_Delete_whole. reflexivity. Qed.

Lemma Departments_Delete_value (c : client) (ctx : Context) (id : string) (w w' : World) :
  fst (Departments_Delete P c ctx id w) = fst (Departments_Delete P c ctx id w').
Proof. rewrite !Departments_Delete_whole. reflexivity. Qed.

Lemma Sweep_whole (s : Sweeper) (ctx : Context) (w : World) :
  let employee_events id :=
    do_events P (s_c s) ctx MethodDelete ("/employees/" +:+ id) None in
  let employee_draws id :=
    do_draws P (s_c s) ctx MethodDelete ("/employees/" +:+ id) None in
  let department_events id :=
    do_events P (s_c s) ctx MethodDelete ("/departments/" +:+ id) None in
  let department_draws id :=
    do_draws P (s_c s) ctx MethodDelete ("/departments/" +:+ id) None in
  let errs :=
    omap (fun id => snd (fst (Employees_Delete P (s_c s) ctx id w))) (employeeIDs s)
    ++ omap (fun id => snd (fst (Departments_Delete P (s_c s) ctx id w))) (departmentIDs s) in
  fst (Sweep P s ctx w) = (if (length errs =? 0)%nat then None else Some (ErrorList errs))
  /\ events (Sweep P s ctx) w
     = loop_events P employee_events employee_draws
         (fun id => [ev_log (mkLogRecord (s_logr s) ctx LevelInfo "deleted employee"
                               [slog_String "employee_id" id])])
         (employeeIDs s) (drawn w)
       ++ loop_events P department_events department_draws
            (fun id => [ev_log (mkLogRecord (s_logr s) ctx LevelInfo "deleted department"
                                  [slog_String "department_id" id])])
            (departmentIDs s) (drawn w + loop_draws employee_draws (employeeIDs s)).
Proof.
  intros employee_events employee_draws department_events department_draws errs.
  assert (Hrun : Sweep P s ctx w
                 = (if (length errs =? 0)%nat then None else Some (ErrorList errs),
                    mkWorld
                      (trace w
                       ++ (loop_events P employee_events employee_draws
                             (fun id => [ev_log (mkLogRecord (s_logr s) ctx LevelInfo
                                                   "deleted employee"
                                                   [slog_String "employee_id" id])])
                             (employeeIDs s) (drawn w)
                           ++ loop_events P department_events department_draws
                                (fun id => [ev_log (mkLogRecord (s_logr s) ctx LevelInfo
                                                      "deleted department"
                                                      [slog_String "department_id" id])])
                                (departmentIDs s)
                                (drawn w + loop_draws employee_draws (employeeIDs s))))
                      (drawn w + loop_draws employee_draws (employeeIDs s)
                       + loop_draws department_draws (departmentIDs s)))).
  { unfold Sweep, mbind, M_bind.
    rewrite (sweep_loop_whole (Employees_Delete P (s_c s) ctx)
               (fun id => unwrap er_Employee
                            (do_result P (s_c s) ctx MethodDelete ("/employees/" +:+ id) None))
               employee_events employee_draws (s_logr s) ctx _ _
               (Employees_Delete_whole (s_c s) ctx)).
    rewrite (sweep_loop_whole (Departments_Delete P (s_c s) ctx)
               (fun id => unwrap dr_Department
                            (do_result P (s_c s) ctx MethodDelete ("/departments/" +:+ id) None))
               department_events department_draws (s_logr s) ctx _ _
               (Departments_Delete_whole (s_c s) ctx)).
    cbn [trace drawn].
    assert (Herrs : [] ++ omap (fun id => snd (unwrap er_Employee
                        (do_result P (s_c s) ctx MethodDelete ("/employees/" +:+ id) None)))
                      (employeeIDs s)
                    ++ omap (fun id => snd (unwrap dr_Department
                        (do_result P (s_c s) ctx MethodDelete ("/departments/" +:+ id) None)))
                      (departmentIDs s) = errs).
    { subst errs. cbn [app]. f_equal; apply omap_pointwise; intros id;
        [rewrite Employees_Delete_whole | rewrite Departments_Delete_whole]; reflexivity. }
    cbn [app] in Herrs. cbn [app]. rewrite Herrs.
    destruct (length errs =? 0)%nat; unfold mret, M_ret; f_equal; f_equal;
      rewrite <- app_assoc; reflexivity. }
  destruct (events_run _ w _ _ _ Hrun) as (Hv & He & _). split; assumption.
Qed.

End SweeperFacts.

(** ** The sweeper at work *)

Lemma info_records_app (a b : list Event) :
  info_records (a ++ b) = info_records a ++ info_records b.
Proof.
  unfold info_records. rewrite log_records_app, List.filter_app, fmap_app. reflexivity.
Qed.

Lemma dump_events_no_info lg ctx id failure message key dump :
  info_records (dump_events lg ctx id failure message key dump) = [].
Proof. unfold dump_events. destruct (snd dump); reflexivity. Qed.

Section SweeperAtWork.
Context (P : Platform) {errDecoder : JSONDecoder ErrorResponse}
  {decDepartment : JSONDecoder DepartmentResponse}
  {decDepartments : JSONDecoder DepartmentListResponse}
  {decEmployee : JSONDecoder EmployeeResponse}
  {decEmployees : JSONDecoder EmployeeListResponse}.

Lemma do_events_no_info (c : client) (ctx : Context) (method path : string)
    (body : option Body) (id : string) :
  info_records (do_events P c ctx method path body id) = [].
Proof.
  unfold do_events.
  destruct (newHTTPRequest P ctx method (GetBaseURL (c_conf c) +:+ path) body) as [req|];
    [|reflexivity].
  rewrite info_records_app.
  assert (Hround : info_records (round_events P (httpClient c) req id) = []).
  { unfold round_events. destruct (has_token P (httpClient c)); [|reflexivity].
    unfold RoundTrip_events. rewrite !info_records_app.
    assert (Hreq : info_records
                     (if Debug (conf (httpClient c))
                      then request_events P (httpClient c) (prepared (httpClient c) req) id
                      else []) = []).
    { destruct (Debug (conf (httpClient c))); [apply dump_events_no_info | reflexivity]. }
    rewrite Hreq. cbn.
    destruct (getWrappedTransport P (httpClient c) (outbound P (httpClient c) req))
      as [resp|]; [|reflexivity].
    rewrite info_records_app.
    assert (Hresp : info_records
                      (if Debug (conf (httpClient c))
                       then response_events P (httpClient c) resp id else []) = []).
    { destruct (Debug (conf (httpClient c))); [|reflexivity].
      unfold response_events. rewrite info_records_app, dump_events_no_info.
      destruct (is_NoBody resp); reflexivity. }
    rewrite Hresp. destruct (in_2xx resp); reflexivity. }
  rewrite Hround.
  destruct (round_result P (httpClient c) req) as [resp|]; [|reflexivity].
  unfold close_events. destruct (body_closeErr resp); reflexivity.
Qed.

Lemma loop_events_info (c : client) (ctx : Context) (lg : Logger) (msg key kind : string)
    (ids : list string) (n : nat) :
  info_records
    (loop_events P
       (fun id => do_events P c ctx MethodDelete (kind +:+ id) None)
       (fun id => do_draws P c ctx MethodDelete (kind +:+ id) None)
       (fun id => [ev_log (mkLogRecord lg ctx LevelInfo msg [slog_String key id])])
       ids n)
  = (fun id => (msg, [slog_String key id])) <$> ids.
Proof.
  revert n. induction ids as [|id ids IH]; intros n; [reflexivity|].
  cbn [loop_events]. rewrite !info_records_app, do_events_no_info, IH. reflexivity.
Qed.

Lemma loop_events_roundtrips (c : client) (ctx : Context) (kind : string)
    (info : string -> list Event) (ids : list string) (n : nat) :
  GetAuthToken P (conf (httpClient c)) <> "" ->
  (forall id, id ∈ ids ->
     http_NewRequest_err P MethodDelete (GetBaseURL (c_conf c) +:+ kind +:+ id) = None) ->
  (forall id, roundtrips (info id) = []) ->
  (fun r => (req_Method r, req_URL r))
  <$> roundtrips
        (loop_events P
           (fun id => do_events P c ctx MethodDelete (kind +:+ id) None)
           (fun id => do_draws P c ctx MethodDelete (kind +:+ id) None)
           info ids n)
  = (fun id => ("DELETE", GetBaseURL (c_conf c) +:+ kind +:+ id)) <$> ids.
Proof.
  intros Htok Hnew Hinfo. apply has_token_true in Htok.
  revert n. induction ids as [|id ids IH]; intros n; [reflexivity|].
  cbn [loop_events]. rewrite !roundtrips_app, Hinfo, !fmap_app.
  rewrite IH by (intros id' Hid'; apply Hnew, elem_of_cons; right; exact Hid').
  rewrite do_events_roundtrips. unfold newHTTPRequest, http_NewRequest.
  change (String.eqb MethodDelete "") with false. cbv iota.
  rewrite (Hnew id) by (apply elem_of_cons; left; reflexivity).
  rewrite Htok. cbn [fmap list_fmap app].
  destruct (outbound_line P (httpClient c)
              (WithContext ctx
                 (set_Header (Header_Add "Content-Type" "")
                    (mkRequest ctx_Background MethodDelete
                       (GetBaseURL (c_conf c) +:+ kind +:+ id) ∅ None))))
    as (_ & -> & ->).
  reflexivity.
Qed.

(** [Sweep] reports the failures of the single deletions, in order, the
    employees before the departments, and nil when there was none; a failure
    does not end the sweep. *)
Theorem Sweep_reports_every_failure (s : Sweeper) (ctx : Context) (w : World) :
  fst (Sweep P s ctx w)
  = match omap (fun id => snd (fst (Employees_Delete P (s_c s) ctx id w))) (employeeIDs s)
          ++ omap (fun id => snd (fst (Departments_Delete P (s_c s) ctx id w)))
               (departmentIDs s)
    with
    | [] => None
    | errs => Some (ErrorList errs)
    end.
Proof.
  destruct (Sweep_whole P s ctx w) as [-> _].
  destruct (_ ++ _); reflexivity.
Qed.

(** [Sweep] logs the deletion of every identifier at level info, whether
    the deletion succeeded or not, and logs nothing else at that level. *)
Theorem Sweep_logs_every_id (s : Sweeper) (ctx : Context) (w : World) :
  info_records (events (Sweep P s ctx) w)
  = ((fun id => ("deleted employee", [slog_String "employee_id" id])) <$> employeeIDs s)
    ++ ((fun id => ("deleted department", [slog_String "department_id" id]))
        <$> departmentIDs s).
Proof.
  destruct (Sweep_whole P s ctx w) as [_ ->].
  rewrite info_records_app.
  rewrite (loop_events_info (s_c s) ctx (s_logr s) "deleted employee" "employee_id"
             "/employees/").
  rewrite (loop_events_info (s_c s) ctx (s_logr s) "deleted department" "department_id"
             "/departments/").
  reflexivity.
Qed.

(** With a token, and when the request constructor accepts the URL of
    each identifier the sweeper holds, [Sweep] sends one DELETE for every
    identifier, the employees first, each to the path of its resource,
    whatever the earlier deletions returned. *)
Theorem Sweep_deletes_every_id (s : Sweeper) (ctx : Context) (w : World) :
  GetAuthToken P (conf (httpClient (s_c s))) <> "" ->
  (forall id, id ∈ employeeIDs s ->
     http_NewRequest_err P MethodDelete
       (GetBaseURL (c_conf (s_c s)) +:+ "/employees/" +:+ id) = None) ->
  (forall id, id ∈ departmentIDs s ->
     http_NewRequest_err P MethodDelete
       (GetBaseURL (c_conf (s_c s)) +:+ "/departments/" +:+ id) = None) ->
  (fun r => (req_Method r, req_URL r)) <$> roundtrips (events (Sweep P s ctx) w)
  = ((fun id => ("DELETE", GetBaseURL (c_conf (s_c s)) +:+ "/employees/" +:+ id))
     <$> employeeIDs s)
    ++ ((fun id => ("DELETE", GetBaseURL (c_conf (s_c s)) +:+ "/departments/" +:+ id))
        <$> departmentIDs s).
Proof.
  intros Htok Hemp Hdep.
  destruct (Sweep_whole P s ctx w) as [_ ->].
  rewrite roundtrips_app, fmap_app.
  rewrite (loop_events_roundtrips (s_c s) ctx "/employees/") by (try assumption; reflexivity).
  rewrite (loop_events_roundtrips (s_c s) ctx "/departments/")
    by (try assumption; reflexivity).
  reflexivity.
Qed.

End SweeperAtWork.

(** ** Collecting, and the sweeper of the tests *)

Lemma prefix_app (sub s t : string) :
  String.prefix sub s = true -> String.prefix sub (s +:+ t) = true.
Proof.
  revert s. induction sub as [|a sub IH]; intros s H.
  - destruct (s +:+ t); reflexivity.
  - destruct s as [|b s]; [discriminate|].
    change (match ascii_dec a b with
            | left _ => String.prefix sub s
            | right _ => false
            end = true) in H.
    change (match ascii_dec a b with
            | left _ => String.prefix sub (s +:+ t)
            | right _ => false
            end = true).
    destruct (ascii_dec a b); [apply IH; exact H | discriminate].
Qed.

Lemma prefix_self_app (s t : string) : String.prefix s (s +:+ t) = true.
Proof.
  induction s as [|a s IH]; [destruct t; reflexivity|].
  change (match ascii_dec a a with
          | left _ => String.prefix s (s +:+ t)
          | right _ => false
          end = true).
  destruct (ascii_dec a a); [exact IH | congruence].
Qed.

Lemma strings_Contains_unfold (s substr : string) :
  strings_Contains s substr
  = String.prefix substr s
    || match s with
       | EmptyString => false
       | String _ s' => strings_Contains s' substr
       end.
Proof. destruct s; reflexivity. Qed.

Lemma Contains_app_l (s t sub : string) :
  strings_Contains s sub = true -> strings_Contains (s +:+ t) sub = true.
Proof.
  induction s as [|a s IH]; intros H.
  - rewrite strings_Contains_unfold in H. apply orb_prop in H as [H|H]; [|discriminate].
    rewrite strings_Contains_unfold. apply orb_true_intro. left.
    apply (prefix_app sub EmptyString t H).
  - rewrite strings_Contains_unfold in H. apply orb_prop in H as [H|H].
    + rewrite strings_Contains_unfold. apply orb_true_intro. left.
      apply (prefix_app sub (String a s) t H).
    + change (String a s +:+ t) with (String a (s +:+ t)).
      rewrite strings_Contains_unfold. apply orb_true_intro. right. apply IH, H.
Qed.

Lemma Contains_app_r (s t sub : string) :
  strings_Contains t sub = true -> strings_Contains (s +:+ t) sub = true.
Proof.
  intros H. induction s as [|a s IH]; [exact H|].
  change (String a s +:+ t) with (String a (s +:+ t)).
  rewrite strings_Contains_unfold. apply orb_true_intro. right. exact IH.
Qed.

Lemma Contains_self_app (s t : string) : strings_Contains (s +:+ t) s = true.
Proof.
  rewrite strings_Contains_unfold. apply orb_true_intro. left. apply prefix_self_app.
Qed.

Section CollectFacts.
Context (P : Platform) {errDecoder : JSONDecoder ErrorResponse}
  {decDepartment : JSONDecoder DepartmentResponse}
  {decDepartments : JSONDecoder DepartmentListResponse}
  {decEmployee : JSONDecoder EmployeeResponse}
  {decEmployees : JSONDecoder EmployeeListResponse}.

Lemma Employees_List_whole (c : client) (ctx : Context) (w : World) :
  Employees_List P c ctx w
  = (unwrap Employees (do_result P c ctx MethodGet "/employees" None),
     mkWorld (trace w ++ do_events P c ctx MethodGet "/employees" None (uuid_New P (drawn w)))
       (drawn w + do_draws P c ctx MethodGet "/employees" None)).
Proof. apply (call_whole P Employees). Qed.

Lemma Departments_List_whole (c : client) (ctx : Context) (w : World) :
  Departments_List P c ctx w
  = (unwrap Departments (do_result P c ctx MethodGet "/departments" None),
     mkWorld
       (trace w ++ do_events P c ctx MethodGet "/departments" None (uuid_New P (drawn w)))
       (drawn w + do_draws P c ctx MethodGet "/departments" None)).
Proof. apply (call_whole P Departments). Qed.

Lemma Departments_List_value (c : client) (ctx : Context) (w w' : World) :
  fst (Departments_List P c ctx w) = fst (Departments_List P c ctx w').
Proof. rewrite !Departments_List_whole. reflexivity. Qed.

(** When both listings succeed, [CollectWithPrefix] appends to each list of
    the sweeper the identifiers of the listed resources whose name starts
    with the prefix, in the order of the listing; what the lists held stays
    in front, and nothing is left out for being there already. *)
Theorem CollectWithPrefix_appends_matches (s : Sweeper) (ctx : Context) (prefix : string)
    (w : World) (emps : list Employee) (deps : list Department) :
  fst (Employees_List P (s_c s) ctx w) = (Some emps, None) ->
  fst (Departments_List P (s_c s) ctx w) = (Some deps, None) ->
  fst (CollectWithPrefix P s ctx prefix w)
  = (None,
     mkSweeper (s_c s) (s_logr s)
       (employeeIDs s
        ++ (emp_ID <$> List.filter (fun e => strings_HasPrefix (emp_Name e) prefix) emps))
       (departmentIDs s
        ++ (dep_ID <$> List.filter (fun d => strings_HasPrefix (dep_Name d) prefix) deps))).
Proof.
  intros Hemp Hdep. unfold CollectWithPrefix, mbind, M_bind.
  destruct (Employees_List P (s_c s) ctx w) as [r w1] eqn:E1. cbn in Hemp. subst r. cbn.
  rewrite (Departments_List_value (s_c s) ctx w w1) in Hdep.
  destruct (Departments_List P (s_c s) ctx w1) as [r w2] eqn:E2. cbn in Hdep. subst r. cbn.
  rewrite !collect_loop_filter. reflexivity.
Qed.

(** When the listing of the employees fails, [CollectWithPrefix] returns
    that error, leaves the sweeper as it was and does not ask for the
    departments. *)
Theorem CollectWithPrefix_employee_failure (s : Sweeper) (ctx : Context) (prefix : string)
    (w : World) (err : error) :
  snd (fst (Employees_List P (s_c s) ctx w)) = Some err ->
  fst (CollectWithPrefix P s ctx prefix w) = (Some err, s)
  /\ events (CollectWithPrefix P s ctx prefix) w = events (Employees_List P (s_c s) ctx) w.
Proof.
  intros Hemp. unfold CollectWithPrefix, mbind, M_bind, events.
  destruct (Employees_List P (s_c s) ctx w) as [r w1] eqn:E1. cbn in Hemp.
  rewrite Hemp. split; reflexivity.
Qed.

(** When the listing of the departments fails after the employees were
    listed, [CollectWithPrefix] returns that error with the employees
    already added: the sweeper keeps the new employee identifiers, and its
    department identifiers are as before. *)
Theorem CollectWithPrefix_department_failure (s : Sweeper) (ctx : Context)
    (prefix : string) (w : World) (emps : list Employee) (err : error) :
  fst (Employees_List P (s_c s) ctx w) = (Some emps, None) ->
  snd (fst (Departments_List P (s_c s) ctx w)) = Some err ->
  fst (CollectWithPrefix P s ctx prefix w)
  = (Some err,
     mkSweeper (s_c s) (s_logr s)
       (employeeIDs s
        ++ (emp_ID <$> List.filter (fun e => strings_HasPrefix (emp_Name e) prefix) emps))
       (departmentIDs s)).
Proof.
  intros Hemp Hdep. unfold CollectWithPrefix, mbind, M_bind.
  destruct (Employees_List P (s_c s) ctx w) as [r w1] eqn:E1. cbn in Hemp. subst r. cbn.
  rewrite (Departments_List_value (s_c s) ctx w w1) in Hdep.
  destruct (Departments_List P (s_c s) ctx w1) as [r w2] eqn:E2. cbn in Hdep.
  rewrite Hdep. cbn. rewrite collect_loop_filter. reflexivity.
Qed.

Lemma errorList_Error_snoc (l : list error) (e : error) :
  errorList_Error P (l ++ [e])
  = errorList_Error P l +:+ (" " +:+ error_string P e +:+ ";").
Proof. unfold errorList_Error. rewrite foldl_app. reflexivity. Qed.

(** The text of the test helper's error list contains the text of every
    error in it. *)
Theorem errorList_Error_contains_all (l : list error) (e : error) :
  e ∈ l -> strings_Contains (errorList_Error P l) (error_string P e) = true.
Proof.
  induction l as [|x l IH] using rev_ind; intros Hin; [inversion Hin|].
  rewrite errorList_Error_snoc. apply elem_of_app in Hin as [Hin|Hin].
  - apply Contains_app_l, IH, Hin.
  - apply list_elem_of_singleton in Hin. subst x.
    apply Contains_app_r. apply (Contains_app_r " "). apply Contains_self_app.
Qed.

(** The two sweepers agree: over the same client and the same identifiers,
    [deleteAll] of the test helper and [Sweep] return the same errors in the
    same order (or both nil), and send the same requests. *)
Theorem deleteAll_agrees_with_Sweep (c : client) (lg : Logger) (ctx : Context)
    (emps deps : list string) (w : World) :
  ErrorList <$> fst (deleteAll P (mkTestSweeper c emps deps) ctx w)
  = fst (Sweep P (mkSweeper c lg emps deps) ctx w)
  /\ roundtrips (events (deleteAll P (mkTestSweeper c emps deps) ctx) w)
     = roundtrips (events (Sweep P (mkSweeper c lg emps deps) ctx) w).
Proof.
  assert (Hrun : deleteAll P (mkTestSweeper c emps deps) ctx w
                 = (let errs :=
                      omap (fun id => snd (fst (Employees_Delete P c ctx id w))) emps
                      ++ omap (fun id => snd (fst (Departments_Delete P c ctx id w))) deps in
                    if (length errs =? 0)%nat then None else Some errs,
                    mkWorld
                      (trace w
                       ++ (loop_events P
                             (fun id => do_events P c ctx MethodDelete ("/employees/" +:+ id) None)
                             (fun id => do_draws P c ctx MethodDelete ("/employees/" +:+ id) None)
                             (fun _ => []) emps (drawn w)
                           ++ loop_events P
                                (fun id => do_events P c ctx MethodDelete
                                             ("/departments/" +:+ id) None)
                                (fun id => do_draws P c ctx MethodDelete
                                             ("/departments/" +:+ id) None)
                                (fun _ => []) deps
                                (drawn w
                                 + loop_draws
                                     (fun id => do_draws P c ctx MethodDelete
                                                  ("/employees/" +:+ id) None) emps)))
                      (drawn w
                       + loop_draws (fun id => do_draws P c ctx MethodDelete
                                                 ("/employees/" +:+ id) None) emps
                       + loop_draws (fun id => do_draws P c ctx MethodDelete
                                                 ("/departments/" +:+ id) None) deps))).
  { unfold deleteAll, mbind, M_bind. cbn [ts_c opts_employeeIDs opts_departmentIDs].
    rewrite (deleteAll_loop_whole P (Employees_Delete P c ctx)
               (fun id => unwrap er_Employee
                            (do_result P c ctx MethodDelete ("/employees/" +:+ id) None))
               (fun id => do_events P c ctx MethodDelete ("/employees/" +:+ id) None)
               (fun id => do_draws P c ctx MethodDelete ("/employees/" +:+ id) None)
               (Employees_Delete_whole P c ctx)).
    rewrite (deleteAll_loop_whole P (Departments_Delete P c ctx)
               (fun id => unwrap dr_Department
                            (do_result P c ctx MethodDelete ("/departments/" +:+ id) None))
               (fun id => do_events P c ctx MethodDelete ("/departments/" +:+ id) None)
               (fun id => do_draws P c ctx MethodDelete ("/departments/" +:+ id) None)
               (Departments_Delete_whole P c ctx)).
    cbn [trace drawn app].
    assert (Herrs : omap (fun id => snd (unwrap er_Employee
                        (do_result P c ctx MethodDelete ("/employees/" +:+ id) None))) emps
                    ++ omap (fun id => snd (unwrap dr_Department
                        (do_result P c ctx MethodDelete ("/departments/" +:+ id) None))) deps
                    = omap (fun id => snd (fst (Employees_Delete P c ctx id w))) emps
                      ++ omap (fun id => snd (fst (Departments_Delete P c ctx id w))) deps).
    { f_equal; apply omap_pointwise; intros id;
        [rewrite Employees_Delete_whole | rewrite Departments_Delete_whole]; reflexivity. }
    rewrite Herrs. cbn zeta.
    destruct (length _ =? 0)%nat; unfold mret, M_ret; f_equal; f_equal;
      rewrite <- app_assoc; reflexivity. }
  destruct (events_run _ w _ _ _ Hrun) as (-> & -> & _). cbn zeta.
  destruct (Sweep_whole P (mkSweeper c lg emps deps) ctx w) as [-> ->].
  cbn [s_c s_logr employeeIDs departmentIDs].
  split.
  - destruct (length _ =? 0)%nat; reflexivity.
  - rewrite !roundtrips_app.
    assert (Hloop : forall kind (info1 info2 : string -> list Event) ids n,
               (forall id, roundtrips (info1 id) = []) ->
               (forall id, roundtrips (info2 id) = []) ->
               roundtrips (loop_events P
                             (fun id => do_events P c ctx MethodDelete (kind +:+ id) None)
                             (fun id => do_draws P c ctx MethodDelete (kind +:+ id) None)
                             info1 ids n)
               = roundtrips (loop_events P
                               (fun id => do_events P c ctx MethodDelete (kind +:+ id) None)
                               (fun id => do_draws P c ctx MethodDelete (kind +:+ id) None)
                               info2 ids n)).
    { intros kind info1 info2 ids. induction ids as [|id ids IH]; intros n H1 H2;
        [reflexivity|].
      cbn [loop_events]. rewrite !roundtrips_app, H1, H2, !do_events_roundtrips.
      rewrite (IH _ H1 H2). reflexivity. }
    rewrite (Hloop "/employees/" (fun _ => [])
               (fun id => [ev_log (mkLogRecord lg ctx LevelInfo "deleted employee"
                                     [slog_String "employee_id" id])]) emps)
      by reflexivity.
    rewrite (Hloop "/departments/" (fun _ => [])
               (fun id => [ev_log (mkLogRecord lg ctx LevelInfo "deleted department"
                                     [slog_String "department_id" id])]) deps)
      by reflexivity.
    reflexivity.
Qed.

End CollectFacts.

(** ** The further properties on concrete inputs *)


Lemma no_debug_no_log_witness :
  log_records
    (events (RoundTrip (Fixture.platform "")
               (mkTransport (Fixture.config "tok" false (Some (Fixture.answering 500 "")))
                  (slog_New (userHandler "test")))
               Fixture.request0)
       Fixture.world0)
  = [].
Proof.
  exact (no_debug_no_log (Fixture.platform "")
           (mkTransport (Fixture.config "tok" false (Some (Fixture.answering 500 "")))
              (slog_New (userHandler "test")))
           Fixture.request0 Fixture.world0 eq_refl).
Defined.



Lemma build_failure_sends_nothing_witness :
  httpDo (T := DepartmentResponse) broken_platform ctx_Background
    (newClient broken_platform (Fixture.config "tok" true None))
    MethodGet "/departments/dep_1" None Fixture.world0
  = ((None, Some (errWrap "could not build request" (errForeign "invalid URL"))),
     Fixture.world0).
Proof.
  exact (build_failure_sends_nothing (T := DepartmentResponse) broken_platform
           (newClient broken_platform (Fixture.config "tok" true None))
           ctx_Background MethodGet "/departments/dep_1" None Fixture.world0
           (errWrap "could not build request" (errForeign "invalid URL")) eq_refl).
Defined.

Lemma newHTTPRequest_failures_witness :
  (exists e, http_NewRequest_err broken_platform MethodGet "u" = Some e
             /\ errWrap "could not build request" (errForeign "invalid URL")
                = errWrap "could not build request" e)
  \/ (exists b e, @None Body = Some b /\ is_formRequest b = false
                  /\ json_Encode broken_platform (json_doc b) = inr e
                  /\ errWrap "could not build request" (errForeign "invalid URL")
                     = errWrap "could not marshal json" e).
Proof.
  exact (newHTTPRequest_failures broken_platform ctx_Background MethodGet "u" None
           (errWrap "could not build request" (errForeign "invalid URL")) eq_refl).
Defined.


Lemma close_failure_is_logged_not_returned_witness :
  fst (httpDo (T := DepartmentResponse) (Fixture.platform "") ctx_Background
         (newClient (Fixture.platform "")
            (Fixture.config "tok" false
               (Some (answering_unclosable 200 Fixture.department_dep_1))))
         MethodGet "/departments/dep_1" None Fixture.world0)
  = (Some (mkDepartmentResponse (mkDepartment "dep_1" "Engineering")), None).
Proof.
  exact (proj1 (close_failure_is_logged_not_returned (T := DepartmentResponse)
                  (Fixture.platform "")
                  (newClient (Fixture.platform "")
                     (Fixture.config "tok" false
                        (Some (answering_unclosable 200 Fixture.department_dep_1))))
                  ctx_Background MethodGet "/departments/dep_1" None
                  (mkRequest ctx_Background MethodGet
                     "https://api.mytimestation.com/v1.2/departments/dep_1"
                     (Header_Add "Content-Type" "" ∅) None)
                  (mkResponse 200 ∅ Fixture.department_dep_1
                     (Some (errForeign "already closed")) ctx_Background)
                  Fixture.world0 (errForeign "already closed")
                  eq_refl ltac:(discriminate) eq_refl eq_refl ltac:(cbn; lia) eq_refl)).
Defined.

Lemma Sweep_deletes_every_id_witness :
  (fun r => (req_Method r, req_URL r))
  <$> roundtrips
        (events (Sweep (Fixture.platform "")
                   (mkSweeper
                      (newClient (Fixture.platform "")
                         (Fixture.config "tok" false (Some (Fixture.answering 404 ""))))
                      (slog_New (userHandler "test")) ["emp_1"; "emp_2"] ["dep_1"])
                   ctx_Background)
           Fixture.world0)
  = [("DELETE", "https://api.mytimestation.com/v1.2/employees/emp_1");
     ("DELETE", "https://api.mytimestation.com/v1.2/employees/emp_2");
     ("DELETE", "https://api.mytimestation.com/v1.2/departments/dep_1")].
Proof.
  exact (Sweep_deletes_every_id (Fixture.platform "")
           (mkSweeper
              (newClient (Fixture.platform "")
                 (Fixture.config "tok" false (Some (Fixture.answering 404 ""))))
              (slog_New (userHandler "test")) ["emp_1"; "emp_2"] ["dep_1"])
           ctx_Background Fixture.world0 ltac:(discriminate)
           (fun _ _ => eq_refl) (fun _ _ => eq_refl)).
Defined.

Lemma CollectWithPrefix_appends_matches_witness :
  fst (CollectWithPrefix (decEmployees := listed_employees)
         (decDepartments := listed_departments) (Fixture.platform "")
         (mkSweeper
            (newClient (Fixture.platform "")
               (Fixture.config "tok" false (Some (Fixture.answering 200 "{}"))))
            (slog_New (userHandler "test")) ["emp_0"] [])
         ctx_Background "gomtstest" Fixture.world0)
  = (None,
     mkSweeper
       (newClient (Fixture.platform "")
          (Fixture.config "tok" false (Some (Fixture.answering 200 "{}"))))
       (slog_New (userHandler "test")) ["emp_0"; "emp_1"] ["dep_2"]).
Proof.
  exact (CollectWithPrefix_appends_matches (decEmployees := listed_employees)
           (decDepartments := listed_departments) (Fixture.platform "")
           (mkSweeper
              (newClient (Fixture.platform "")
                 (Fixture.config "tok" false (Some (Fixture.answering 200 "{}"))))
              (slog_New (userHandler "test")) ["emp_0"] [])
           ctx_Background "gomtstest" Fixture.world0
           (Employees (fst (listed_employees EmptyString)))
           (Departments (fst (listed_departments EmptyString)))
           eq_refl eq_refl).
Defined.

Lemma CollectWithPrefix_employee_failure_witness :
  fst (CollectWithPrefix (Fixture.platform "")
         (mkSweeper
            (newClient (Fixture.platform "")
               (Fixture.config "tok" false (Some (Fixture.answering 200 "{}"))))
            (slog_New (userHandler "test")) ["emp_0"] [])
         ctx_Background "gomtstest" Fixture.world0)
  = (Some (errForeign "EOF"),
     mkSweeper
       (newClient (Fixture.platform "")
          (Fixture.config "tok" false (Some (Fixture.answering 200 "{}"))))
       (slog_New (userHandler "test")) ["emp_0"] []).
Proof.
  exact (proj1 (CollectWithPrefix_employee_failure (Fixture.platform "")
                  (mkSweeper
                     (newClient (Fixture.platform "")
                        (Fixture.config "tok" false (Some (Fixture.answering 200 "{}"))))
                     (slog_New (userHandler "test")) ["emp_0"] [])
                  ctx_Background "gomtstest" Fixture.world0 (errForeign "EOF") eq_refl)).
Defined.

Lemma CollectWithPrefix_department_failure_witness :
  fst (CollectWithPrefix (decEmployees := listed_employees) (Fixture.platform "")
         (mkSweeper
            (newClient (Fixture.platform "")
               (Fixture.config "tok" false (Some (Fixture.answering 200 "{}"))))
            (slog_New (userHandler "test")) ["emp_0"] ["dep_0"])
         ctx_Background "gomtstest" Fixture.world0)
  = (Some (errForeign "EOF"),
     mkSweeper
       (newClient (Fixture.platform "")
          (Fixture.config "tok" false (Some (Fixture.answering 200 "{}"))))
       (slog_New (userHandler "test")) ["emp_0"; "emp_1"] ["dep_0"]).
Proof.
  exact (CollectWithPrefix_department_failure (decEmployees := listed_employees)
           (Fixture.platform "")
           (mkSweeper
              (newClient (Fixture.platform "")
                 (Fixture.config "tok" false (Some (Fixture.answering 200 "{}"))))
              (slog_New (userHandler "test")) ["emp_0"] ["dep_0"])
           ctx_Background "gomtstest" Fixture.world0
           (Employees (fst (listed_employees EmptyString)))
           (errForeign "EOF") eq_refl eq_refl).
Defined.

Lemma errorList_Error_contains_all_witness :
  strings_Contains
    (errorList_Error (Fixture.platform "")
       [errService (mkError 404 "Not Found"); ErrMissingToken])
    "missing MyTimeStation API auth token"
  = true.
Proof.
  exact (errorList_Error_contains_all (Fixture.platform "")
           [errService (mkError 404 "Not Found"); ErrMissingToken] ErrMissingToken
           ltac:(apply list_elem_of_further, list_elem_of_here)).
Defined.

(** ** The transport: calls and statuses *)

Section TransportCalls.
Context (P : Platform) {errDecoder : JSONDecoder ErrorResponse}.

(** The wrapped transport is called once for a request, however the
    exchange ends (a response, a status outside 200 to 299, a failure of
    the transport), and not at all without a token: there is no second
    attempt. *)
Theorem one_call_per_request (t : mtsTransport) (req : Request) (w : World) :
  roundtrips (events (RoundTrip P t req) w)
  = if String.eqb (GetAuthToken P (conf t)) "" then [] else [outbound P t req].
Proof.
  destruct (events_run _ w _ _ _ (RoundTrip_whole P t req w)) as (_ & -> & _).
  rewrite round_events_roundtrips. unfold has_token.
  destruct (String.eqb (GetAuthToken P (conf t)) ""); reflexivity.
Qed.


(** The mapped error says something: its code is zero only when the
    envelope has no code and the status itself is zero, and its text is
    empty only when there is no status text for its code either. *)
Theorem mapped_error_is_informative (resp : Response) (w : World) :
  let e := fst (mapResponseToError P resp w) in
  (ErrorCode e = 0 ->
   StatusCode resp = 0
   /\ ErrorCode (er_Error (fst (json_Decode (T := ErrorResponse) (resp_Body resp)))) = 0)
  /\ (ErrorText e = "" ->
      http_StatusText P (ErrorCode e) = ""
      /\ ErrorText (er_Error (fst (json_Decode (T := ErrorResponse) (resp_Body resp)))) = "").
Proof.
  rewrite mapResponseToError_run. cbn. unfold mapped_error.
  destruct (er_Error (fst (json_Decode (resp_Body resp)))) as [code text]. cbn.
  destruct (code =? 0) eqn:Hc; cbn; destruct (String.eqb text "") eqn:Ht; cbn;
    rewrite ?Z.eqb_eq, ?Z.eqb_neq, ?String.eqb_eq, ?String.eqb_neq in *;
    split; intros H; split; congruence.
Qed.

End TransportCalls.


(** ** The sweepers side by side, and adding by hand *)

Section SweepersSideBySide.
Context (P : Platform) {errDecoder : JSONDecoder ErrorResponse}
  {decDepartment : JSONDecoder DepartmentResponse}
  {decDepartments : JSONDecoder DepartmentListResponse}
  {decEmployee : JSONDecoder EmployeeResponse}
  {decEmployees : JSONDecoder EmployeeListResponse}.

(** [collectAll] of the test helper is [CollectWithPrefix] at the prefix of
    the test resources: the same error, the same identifiers, the same
    events. *)
Theorem collectAll_is_CollectWithPrefix (c : client) (lg : Logger) (ctx : Context)
    (emps deps : list string) (w : World) :
  let collected :=
    CollectWithPrefix P (mkSweeper c lg emps deps) ctx testResourcePrefix w in
  let helper := collectAll P (mkTestSweeper c emps deps) ctx w in
  fst (fst helper) = fst (fst collected)
  /\ opts_employeeIDs (snd (fst helper)) = employeeIDs (snd (fst collected))
  /\ opts_departmentIDs (snd (fst helper)) = departmentIDs (snd (fst collected))
  /\ snd helper = snd collected.
Proof.
  unfold CollectWithPrefix, collectAll, mbind, M_bind. cbn.
  destruct (Employees_List P c ctx w) as [[r1 [e1|]] w1]; cbn; [repeat split|].
  destruct (Departments_List P c ctx w1) as [[r2 [e2|]] w2]; cbn; repeat split.
Qed.

(** With a token, and when the request constructor accepts the URL of
    each identifier, an identifier added by hand is deleted by the next
    sweep, after the employees the sweeper held before and ahead of the
    departments. *)
Theorem added_employee_is_swept (s : Sweeper) (id : string) (ctx : Context) (w : World) :
  GetAuthToken P (conf (httpClient (s_c s))) <> "" ->
  (forall i, i ∈ employeeIDs s ++ [id] ->
     http_NewRequest_err P MethodDelete
       (GetBaseURL (c_conf (s_c s)) +:+ "/employees/" +:+ i) = None) ->
  (forall i, i ∈ departmentIDs s ->
     http_NewRequest_err P MethodDelete
       (GetBaseURL (c_conf (s_c s)) +:+ "/departments/" +:+ i) = None) ->
  req_URL <$> roundtrips (events (Sweep P (AddEmployee id s) ctx) w)
  = ((fun i => GetBaseURL (c_conf (s_c s)) +:+ "/employees/" +:+ i) <$> employeeIDs s)
    ++ [GetBaseURL (c_conf (s_c s)) +:+ "/employees/" +:+ id]
    ++ ((fun i => GetBaseURL (c_conf (s_c s)) +:+ "/departments/" +:+ i)
        <$> departmentIDs s).
Proof.
  intros Htok Hnew_emp Hnew_dep.
  destruct (Sweep_whole P (AddEmployee id s) ctx w) as [_ ->].
  cbn [AddEmployee set_employeeIDs s_c s_logr employeeIDs departmentIDs].
  rewrite roundtrips_app, fmap_app.
  pose proof (loop_events_roundtrips P (s_c s) ctx "/employees/") as Hemp.
  pose proof (loop_events_roundtrips P (s_c s) ctx "/departments/") as Hdep.
  assert (Hurl : forall l : list Request,
             req_URL <$> l = snd <$> ((fun r => (req_Method r, req_URL r)) <$> l)).
  { intros l. rewrite <- list_fmap_compose. reflexivity. }
  rewrite !Hurl, Hemp, Hdep by (try assumption; reflexivity).
  rewrite <- !list_fmap_compose, fmap_app, <- app_assoc. reflexivity.
Qed.

End SweepersSideBySide.

Lemma added_employee_is_swept_witness :
  req_URL
  <$> roundtrips
        (events (Sweep (Fixture.platform "")
                   (AddEmployee "emp_9"
                      (mkSweeper
                         (newClient (Fixture.platform "")
                            (Fixture.config "tok" false (Some (Fixture.answering 200 "{}"))))
                         (slog_New (userHandler "test")) ["emp_1"] ["dep_1"]))
                   ctx_Background)
           Fixture.world0)
  = ["https://api.mytimestation.com/v1.2/employees/emp_1";
     "https://api.mytimestation.com/v1.2/employees/emp_9";
     "https://api.mytimestation.com/v1.2/departments/dep_1"].
Proof.
  exact (added_employee_is_swept (Fixture.platform "")
           (mkSweeper
              (newClient (Fixture.platform "")
                 (Fixture.config "tok" false (Some (Fixture.answering 200 "{}"))))
              (slog_New (userHandler "test")) ["emp_1"] ["dep_1"])
           "emp_9" ctx_Background Fixture.world0 ltac:(discriminate)
           (fun _ _ => eq_refl) (fun _ _ => eq_refl)).
Defined.
